(** * Math Problem Solver: a model of [app.py]

    [app.py] is a Streamlit script: the whole file is executed from top to
    bottom on every user interaction, with the widget values of that
    interaction and the session state left by the previous executions.
    The development below embeds one execution of the script as a
    computation in a small state monad with script control ([st.stop],
    [st.experimental_rerun], an uncaught exception), and a session as the
    iteration of such executions. *)

From Stdlib Require Import QArith.
From stdpp Require Import base list strings pretty.

Open Scope string_scope.
Open Scope list_scope.

(** ** Python values used by the script *)

(** Truth value of a Python [str]: only the empty string is falsy. *)
Definition truthy (s : string) : bool :=
  match s with
  | EmptyString => false
  | String _ _ => true
  end.

(** [enumerate(l)] *)
Definition enumerate {A : Type} (l : list A) : list (nat * A) :=
  zip (seq 0 (length l)) l.

(** ** Data model *)

(** One entry of [st.session_state.messages]: the dict
    [{"role": ..., "content": ...}]. *)
Record message := Message { role : string; content : string }.

(** The object returned by [ChatGroq(...)]. *)
Record ChatGroq := {
  model : string;
  groq_api_key : string;
  temperature : Q;
  streaming : bool
}.

Record WikipediaAPIWrapper := { wiki_top_k_results : nat }.
Record ArxivAPIWrapper := { arxiv_top_k_results : nat }.

Record PromptTemplate := {
  input_variables : list string;
  template : string
}.

(** The callables handed to [Tool(func=...)]: the bound [run] method of a
    chain built on the model client. *)
Inductive chain_run :=
| LLMMathChain_run (llm : ChatGroq)
| LLMChain_run (llm : ChatGroq) (prompt : PromptTemplate).

(** The tool objects the script builds. *)
Inductive tool :=
| WikipediaQueryRun (api_wrapper : WikipediaAPIWrapper)
| ArxivQueryRun (api_wrapper : ArxivAPIWrapper)
| DuckDuckGoSearchRun
| Tool (name description : string) (func : chain_run).

Record SystemMessage := { sm_content : string }.

Inductive AgentType := ZERO_SHOT_REACT_DESCRIPTION.

(** The arguments of [initialize_agent(...)]; the returned executor is
    determined by them. *)
Record agent := {
  tools : list tool;
  agent_llm : ChatGroq;
  agent_type : AgentType;
  verbose : bool;
  handle_parsing_errors : bool;
  system_message : SystemMessage;
  early_stopping_method : string
}.

(** [StreamlitCallbackHandler(st.container(), expand_new_thoughts=...)] *)
Record StreamlitCallbackHandler := { expand_new_thoughts : bool }.

(** What the agent loop reports to its callbacks while it runs. *)
Inductive agent_event :=
| Thought (text : string)
| Action (tool_name tool_input : string).

(** How [assistant_agent.run(...)] ends: it returns the answer, or raises
    an exception [e] of class [Exception], given here by [str(e)]. *)
Inductive run_outcome :=
| Returns (response : string)
| Raises (e : string).

(** ** The world outside the script, for one execution *)

Record world := {
  (** [os.environ.get("GROQ_API_KEY")] *)
  environ_GROQ_API_KEY : option string;
  (** [Some e] when the [ChatGroq] constructor raises [e] on these
      arguments *)
  ChatGroq_raises : ChatGroq -> option string;
  (** the events reported by the agent loop, and how the run ends *)
  agent_run : agent -> string -> list agent_event * run_outcome
}.

(** [os.getenv(name, default)] on the one variable the script reads. *)
Definition os_getenv (w : world) (dflt : string) : string :=
  default dflt (environ_GROQ_API_KEY w).

(** ** Widget values of one interaction *)

(** A script execution is triggered by one interaction, so at most one
    button reports [True] in it. *)
Inductive click :=
| NoClick
| SolveClick
| ExampleClick (i : nat).

Record widgets := {
  (** text in the key field, [None] while the user has not edited it *)
  w_api_key : option string;
  (** index picked in the model drop-down *)
  w_model : option nat;
  (** slider position *)
  w_temperature : option Q;
  (** checkbox state *)
  w_show_reasoning : option bool;
  (** content of the question text area *)
  w_question : string;
  w_click : click
}.

(** The widgets of a browser session in which nothing was touched yet. *)
Definition fresh_widgets : widgets :=
  {| w_api_key := None; w_model := None; w_temperature := None;
     w_show_reasoning := None; w_question := ""; w_click := NoClick |}.

(** After [st.experimental_rerun()] the script runs again with the same
    widget values; a button is [True] only in the execution its click
    triggered. *)
Definition release_buttons (ui : widgets) : widgets :=
  {| w_api_key := w_api_key ui; w_model := w_model ui;
     w_temperature := w_temperature ui;
     w_show_reasoning := w_show_reasoning ui;
     w_question := w_question ui; w_click := NoClick |}.

(** ** Effects of a script execution *)

(** The calls an execution makes, to Streamlit and to the model and agent
    libraries. Arguments that only change how a widget looks ([help],
    [type], [format_func]) are left out. *)

Inductive effect :=
| st_set_page_config (page_title page_icon layout : string)
| st_title (body : string)
| st_markdown (body : string)
| st_sidebar_title (body : string)
| st_sidebar_markdown (body : string)
| st_sidebar_text_input (label value : string)
| st_sidebar_selectbox (label : string) (options : list string) (index : nat)
| st_sidebar_expander (label : string)
| st_slider (label : string) (min_value max_value value step : Q)
| st_checkbox (label : string) (value : bool)
| st_info (body : string)
| st_sidebar_info (body : string)
| st_error (body : string)
| st_chat_message_write (name body : string)
| st_chat_message (name : string)
| st_container
| st_tabs (labels : list string)
| st_text_area (label placeholder : string) (height : nat)
| st_button (label : string) (key : option string)
| st_write (body : string)
| new_ChatGroq (llm : ChatGroq)
| call_setup_tools (result : list tool)
| call_initialize_agent (result : agent)
| call_agent_run (a : agent) (question : string)
    (callbacks : list StreamlitCallbackHandler)
| on_agent_event (handler : StreamlitCallbackHandler) (ev : agent_event).

(** ** The script monad *)

(** How a piece of the script ends: normally with a value, by [st.stop()],
    by [st.experimental_rerun()], or by an exception nobody catches. *)
Inductive control (A : Type) :=
| Normal (a : A)
| Stop
| Rerun
| Uncaught (e : string).
Arguments Normal {A} a.
Arguments Stop {A}.
Arguments Rerun {A}.
Arguments Uncaught {A} e.

Record script_state := {
  (** [st.session_state["messages"]]; [None] while the key is absent *)
  messages : option (list message);
  (** everything the execution did, oldest first *)
  trace : list effect
}.

Definition script (A : Type) : Type := script_state -> control A * script_state.

#[global] Instance script_ret : MRet script :=
  fun _ a s => (Normal a, s).

#[global] Instance script_bind : MBind script :=
  fun _ _ f m s =>
    match m s with
    | (Normal a, s') => f a s'
    | (Stop, s') => (Stop, s')
    | (Rerun, s') => (Rerun, s')
    | (Uncaught e, s') => (Uncaught e, s')
    end.

Definition emit (e : effect) : script unit :=
  fun s => (Normal (), {| messages := messages s; trace := trace s ++ [e] |}).

Definition st_stop {A : Type} : script A :=
  fun s => (Stop, s).

Definition st_experimental_rerun {A : Type} : script A :=
  fun s => (Rerun, s).

(** ["messages" not in st.session_state] *)
Definition messages_absent : script bool :=
  fun s => (Normal (bool_decide (messages s = None)), s).

(** [st.session_state["messages"] = l] *)
Definition set_messages (l : list message) : script unit :=
  fun s => (Normal (), {| messages := Some l; trace := trace s |}).

(** [st.session_state.messages]: attribute access fails when the key is
    absent. *)
Definition get_messages : script (list message) :=
  fun s =>
    match messages s with
    | Some l => (Normal l, s)
    | None => (Uncaught "AttributeError: st.session_state has no attribute messages", s)
    end.

(** [st.session_state.messages.append(m)] *)
Definition messages_append (m : message) : script unit :=
  l ← get_messages; set_messages (l ++ [m]).

(** [for x in l: body(acc, x)], the loop variables threaded as [acc]. *)
Fixpoint for_each {A S : Type} (l : list A) (body : S -> A -> script S)
    (acc : S) : script S :=
  match l with
  | [] => mret acc
  | x :: l' => acc' ← body acc x; for_each l' body acc'
  end.

(** ** Widgets *)

(** [st.sidebar.text_input(label, value=...)]: the edited text, or the
    initial [value] while the field is untouched. *)
Definition sidebar_text_input (label value : string) (typed : option string)
  : script string :=
  emit (st_sidebar_text_input label value);; mret (default value typed).

(** [st.sidebar.selectbox(label, options, index=...)]: the option picked,
    or the one at [index] while the drop-down is untouched. *)
Definition sidebar_selectbox (label : string) (options : list string)
    (index : nat) (picked : option nat) : script string :=
  emit (st_sidebar_selectbox label options index);;
  mret (default (default "" (options !! index))
          (options !! default index picked)).

(** [st.slider(label, min_value, max_value, value, step)] *)
Definition slider (label : string) (min_value max_value value step : Q)
    (moved : option Q) : script Q :=
  emit (st_slider label min_value max_value value step);;
  mret (default value moved).

(** [st.checkbox(label, value=...)] *)
Definition checkbox (label : string) (value : bool) (ticked : option bool)
  : script bool :=
  emit (st_checkbox label value);; mret (default value ticked).

(** [st.text_area(label, placeholder=..., height=...)] *)
Definition text_area (label placeholder : string) (height : nat)
    (typed : string) : script string :=
  emit (st_text_area label placeholder height);; mret typed.

(** [st.button(label, key=...)], [pressed] telling whether this is the
    button whose click triggered the execution. *)
Definition button (label : string) (key : option string) (pressed : bool)
  : script bool :=
  emit (st_button label key);; mret pressed.

Definition solve_pressed (c : click) : bool :=
  match c with SolveClick => true | _ => false end.

Definition example_pressed (i : nat) (c : click) : bool :=
  match c with ExampleClick j => bool_decide (j = i) | _ => false end.

(** ** Constants of the script *)

Definition model_options : list (string * string) :=
  [ ("gemma2-9b-it", "Gemma 2 9B (Fast)");
    ("llama3-8b-8192", "Llama 3 8B (Balanced)");
    ("llama3-70b-8192", "Llama 3 70B (Powerful)");
    ("mixtral-8x7b-32768", "Mixtral 8x7B (Comprehensive)") ].

Definition greeting : message :=
  Message "assistant"
    "Hi, I'm your Math Problem Solver! Ask me any math question or problem, and I'll solve it step-by-step.".

Definition example_problems : list string :=
  [ "Solve for x: 2x + 5 = 15";
    "Find the area of a circle with radius 4 cm";
    "If a train travels at 60 mph and takes 3 hours to reach its destination, how far did it travel?";
    "I have 5 bananas and 7 grapes. I eat 2 bananas and give away 3 grapes. Then I buy a dozen apples and 2 packs of blueberries. Each pack contains 25 berries. How many total pieces of fruit do I have at the end?" ].

Definition app_description : string :=
"
This application solves mathematical problems and provides step-by-step explanations using Groq's AI models.
It can handle various math topics including:
- Arithmetic calculations
- Algebra
- Geometry
- Statistics
- Word problems
- And more!
".

Definition example_problem_display : string :=
"
    ```
    I have 5 bananas and 7 grapes. I eat 2 bananas and give away 3 grapes. 
    Then I buy a dozen apples and 2 packs of blueberries. 
    Each pack of blueberries contains 25 berries. 
    How many total pieces of fruit do I have at the end?
    ```
    ".

Definition reasoning_prompt : string :=
"
    You're an expert mathematics teacher. Solve the following problem step by step:
    
    {question}
    
    First, identify what information is given and what is being asked.
    Then, lay out a clear strategy for solving the problem.
    Show your work carefully, with each step clearly labeled.
    Provide a final answer with appropriate units if applicable.
    
    Your solution:
    ".

Definition tutor_instructions : string :=
"
    You are an expert mathematics tutor and problem solver. Your goal is to:
    1. Solve mathematical problems accurately
    2. Provide clear, step-by-step explanations
    3. Use the appropriate tools for calculations and information gathering
    4. Organize your answers in a structured format with headings
    5. Include formulas and equations where relevant
    
    For math problems, always show your work and explain your thinking.
    For information queries, cite your sources where appropriate.
    ".

Definition about_text : string :=
  "This app uses Groq's AI models to solve math problems " +:+
  "and provide step-by-step explanations. It can handle a wide range " +:+
  "of mathematical topics from basic arithmetic to advanced calculus.".

(** ** Tools and agent *)

(** [setup_tools()], with the global [llm] it reads as an argument. *)
Definition setup_tools (llm : ChatGroq) : list tool :=
  let wiki_wrapper := {| wiki_top_k_results := 2 |} in
  let wiki_tool := WikipediaQueryRun wiki_wrapper in
  let arxiv_wrapper := {| arxiv_top_k_results := 1 |} in
  let arxiv_tool := ArxivQueryRun arxiv_wrapper in
  let search_tool := DuckDuckGoSearchRun in
  let calculator :=
    Tool "Calculator"
      "A tool for performing mathematical calculations. Input only mathematical expressions."
      (LLMMathChain_run llm) in
  let prompt_template :=
    {| input_variables := ["question"]; template := reasoning_prompt |} in
  let reasoning_tool :=
    Tool "MathReasoning"
      "A tool for solving math problems step-by-step with detailed explanations."
      (LLMChain_run llm prompt_template) in
  [wiki_tool; arxiv_tool; search_tool; calculator; reasoning_tool].

(** [initialize_math_agent(tools)], with the globals [llm] and
    [show_reasoning] it reads as arguments. *)
Definition initialize_math_agent (llm : ChatGroq) (show_reasoning : bool)
    (tools : list tool) : agent :=
  let system_message := {| sm_content := tutor_instructions |} in
  {| tools := tools;
     agent_llm := llm;
     agent_type := ZERO_SHOT_REACT_DESCRIPTION;
     verbose := show_reasoning;
     handle_parsing_errors := true;
     system_message := system_message;
     early_stopping_method := "generate" |}.

(** ** The script, top to bottom *)

(** The values read from the sidebar. *)
Record config := {
  cfg_groq_api_key : string;
  cfg_selected_model : string;
  cfg_temperature : Q;
  cfg_show_reasoning : bool
}.

Definition header : script unit :=
  emit (st_set_page_config "Math Problem Solver" "🧮" "wide");;
  emit (st_title "🧮 Math Problem Solver");;
  emit (st_markdown app_description).

Definition configuration (w : world) (ui : widgets) : script config :=
  emit (st_sidebar_title "⚙️ Configuration");;
  emit (st_sidebar_markdown "---");;
  let default_api_key := os_getenv w "" in
  api_key ← sidebar_text_input "Groq API Key" default_api_key (w_api_key ui);
  selected_model ←
    sidebar_selectbox "Select AI model:" (model_options.*1) 0 (w_model ui);
  emit (st_sidebar_expander "Advanced Options");;
  temp ← slider "Temperature" 0.0 1.0 0.2 0.1 (w_temperature ui);
  show_reasoning ←
    checkbox "Show AI reasoning steps" true (w_show_reasoning ui);
  mret {| cfg_groq_api_key := api_key;
          cfg_selected_model := selected_model;
          cfg_temperature := temp;
          cfg_show_reasoning := show_reasoning |}.

(** [if not groq_api_key: ...; st.stop()] *)
Definition api_key_gate (api_key : string) : script unit :=
  if negb (truthy api_key) then
    emit (st_info "Please add your Groq API key in the sidebar to continue");;
    emit (st_sidebar_info
            "Don't have an API key? Sign up at [console.groq.com](https://console.groq.com)");;
    emit (st_markdown "### Example Problem");;
    emit (st_markdown example_problem_display);;
    st_stop
  else mret ().

(** [try: llm = ChatGroq(...) except Exception as e: st.error(...); st.stop()] *)
Definition init_llm (w : world) (cfg : config) : script ChatGroq :=
  let llm := {| model := cfg_selected_model cfg;
                groq_api_key := cfg_groq_api_key cfg;
                temperature := cfg_temperature cfg;
                streaming := true |} in
  emit (new_ChatGroq llm);;
  match ChatGroq_raises w llm with
  | None => mret llm
  | Some e =>
      emit (st_error ("Error initializing the AI model: " +:+ e));;
      st_stop
  end.

Definition init_session : script unit :=
  absent ← messages_absent;
  if (absent : bool) then set_messages [greeting] else mret ().

Definition display_history : script unit :=
  msgs ← get_messages;
  for_each msgs
    (fun _ msg => emit (st_chat_message_write (role msg) (content msg))) ().

(** Tab 1; returns the script variables [(question, solve_button)]. *)
Definition question_tab (ui : widgets) : script (string * bool) :=
  emit (st_tabs ["Enter Your Question"; "Try Examples"]);;
  question ←
    text_area "Type your math problem or question:"
      "Enter your math problem here..." 100 (w_question ui);
  solve_button ← button "Solve Problem" None (solve_pressed (w_click ui));
  mret (question, solve_button).

(** Body of the loop of tab 2, on the variables [(question, solve_button)]. *)
Definition example_button (ui : widgets) (vars : string * bool)
    (ie : nat * string) : script (string * bool) :=
  let i := ie.1 in
  let example := ie.2 in
  pressed ←
    button ("Example " +:+ pretty (i + 1)%nat)
      (Some ("example_" +:+ pretty i)) (example_pressed i (w_click ui));
  if (pressed : bool) then
    let question := example in
    let solve_button := true in
    messages_append (Message "user" question);;
    (st_experimental_rerun : script unit);;
    mret (question, solve_button)
  else mret vars.

Definition examples_tab (ui : widgets) (vars : string * bool)
  : script (string * bool) :=
  emit (st_write "Select an example problem:");;
  for_each (enumerate example_problems) (example_button ui) vars.

(** The body of [if solve_button and question:]. *)
Definition solve_request (w : world) (llm : ChatGroq) (show_reasoning : bool)
    (question : string) : script unit :=
  messages_append (Message "user" question);;
  emit (st_chat_message_write "user" question);;
  let tools := setup_tools llm in
  emit (call_setup_tools tools);;
  let assistant_agent := initialize_math_agent llm show_reasoning tools in
  emit (call_initialize_agent assistant_agent);;
  emit (st_chat_message "assistant");;
  emit st_container;;
  let st_cb := {| expand_new_thoughts := show_reasoning |} in
  emit (call_agent_run assistant_agent question [st_cb]);;
  let run := agent_run w assistant_agent question in
  for_each run.1 (fun _ ev => emit (on_agent_event st_cb ev)) ();;
  match run.2 with
  | Returns response =>
      emit (st_write response);;
      messages_append (Message "assistant" response)
  | Raises e =>
      let error_msg := "Error generating response: " +:+ e in
      emit (st_error error_msg);;
      messages_append (Message "assistant" error_msg)
  end.

Definition footer : script unit :=
  emit (st_sidebar_markdown "---");;
  emit (st_sidebar_markdown "### About");;
  emit (st_sidebar_info about_text);;
  emit (st_sidebar_markdown "### Feedback");;
  emit (st_sidebar_markdown
          "[Report an issue](https://github.com/yourusername/math-problem-solver/issues)").

(** One execution of [app.py]. *)
Definition app (w : world) (ui : widgets) : script unit :=
  header;;
  cfg ← configuration w ui;
  api_key_gate (cfg_groq_api_key cfg);;
  llm ← init_llm w cfg;
  init_session;;
  display_history;;
  vars ← question_tab ui;
  vars ← examples_tab ui vars;
  (if vars.2 && truthy vars.1
   then solve_request w llm (cfg_show_reasoning cfg) vars.1
   else mret ());;
  footer.

(** ** Streamlit's script runner and the session *)

(** Runs the script, and again after each [st.experimental_rerun()];
    [None] when [fuel] executions were not enough. *)
Fixpoint script_runner (fuel : nat) (w : world) (ui : widgets)
    (s : script_state) : option (control unit * script_state) :=
  match fuel with
  | O => None
  | S fuel' =>
      match app w ui s with
      | (Rerun, s') => script_runner fuel' w (release_buttons ui) s'
      | r => Some r
      end
  end.

(** The state an interaction starts from: the session's messages and an
    empty trace. *)
Definition on_session (session : option (list message)) : script_state :=
  {| messages := session; trace := [] |}.

(** A session: one interaction after the other, each with its own world
    and widget values, on the messages left by the previous one. *)
Fixpoint session_run (fuel : nat) (steps : list (world * widgets))
    (session : option (list message)) : option (option (list message)) :=
  match steps with
  | [] => Some session
  | step :: rest =>
      match script_runner fuel step.1 step.2 (on_session session) with
      | None => None
      | Some r => session_run fuel rest (messages r.2)
      end
  end.

(** The conversation held by a session state. *)
Definition conversation (session : option (list message)) : list message :=
  default [] session.

(** ** Vocabulary of the properties *)

(** The state with more effects recorded. *)
Definition add_trace (s : script_state) (t : list effect) : script_state :=
  {| messages := messages s; trace := trace s ++ t |}.

(** The conversation once line 178 has run: unchanged when it exists,
    the greeting alone otherwise. *)
Definition seed (session : option (list message)) : list message :=
  default [greeting] session.

(** The values [configuration] returns. *)
Definition read_config (w : world) (ui : widgets) : config :=
  {| cfg_groq_api_key := default (os_getenv w "") (w_api_key ui);
     cfg_selected_model :=
       default (default "" (model_options.*1 !! 0%nat))
         (model_options.*1 !! default 0%nat (w_model ui));
     cfg_temperature := default 0.2%Q (w_temperature ui);
     cfg_show_reasoning := default true (w_show_reasoning ui) |}.

(** The arguments [ChatGroq] is called with. *)
Definition client (w : world) (ui : widgets) : ChatGroq :=
  {| model := cfg_selected_model (read_config w ui);
     groq_api_key := cfg_groq_api_key (read_config w ui);
     temperature := cfg_temperature (read_config w ui);
     streaming := true |}.

(** The agent a solve request builds, and the handler it runs it with. *)
Definition solver (w : world) (ui : widgets) : agent :=
  initialize_math_agent (client w ui) (cfg_show_reasoning (read_config w ui))
    (setup_tools (client w ui)).

Definition handler (w : world) (ui : widgets) : StreamlitCallbackHandler :=
  {| expand_new_thoughts := cfg_show_reasoning (read_config w ui) |}.

(** The content of the assistant record a run ends with. *)
Definition reply (o : run_outcome) : string :=
  match o with
  | Returns response => response
  | Raises e => "Error generating response: " +:+ e
  end.

(** Python's [needle in hay] on strings. *)
Fixpoint contains (needle hay : string) : bool :=
  String.prefix needle hay ||
  match hay with
  | EmptyString => false
  | String _ hay' => contains needle hay'
  end.

(** The two roles of a conversation record. *)
Definition chat_role (m : message) : Prop :=
  role m = "user" \/ role m = "assistant".

(** Classification of the tool objects by what they are for. *)
Inductive tool_kind :=
| EncyclopediaLookup (top_k : nat)
| AcademicPaperLookup (top_k : nat)
| WebSearch
| Calculator
| StepReasoning.

Definition kind_of (t : tool) : tool_kind :=
  match t with
  | WikipediaQueryRun wrapper => EncyclopediaLookup (wiki_top_k_results wrapper)
  | ArxivQueryRun wrapper => AcademicPaperLookup (arxiv_top_k_results wrapper)
  | DuckDuckGoSearchRun => WebSearch
  | Tool _ _ (LLMMathChain_run _) => Calculator
  | Tool _ _ (LLMChain_run _ _) => StepReasoning
  end.

(** Effects that build or run the solver. *)
Definition solver_call (e : effect) : bool :=
  match e with
  | call_setup_tools _ | call_initialize_agent _ | call_agent_run _ _ _
  | on_agent_event _ _ => true
  | _ => false
  end.

(** Effects that construct a model client. *)
Definition client_construction (e : effect) : bool :=
  match e with
  | new_ChatGroq _ => true
  | _ => false
  end.

(** Effects that draw the question input area: the tabs, the text area
    and the buttons. *)
Definition chat_input (e : effect) : bool :=
  match e with
  | st_tabs _ | st_text_area _ _ _ | st_button _ _ => true
  | _ => false
  end.

(** The agent events handed to a callback handler, with that handler. *)
Definition delivered (t : list effect)
  : list (StreamlitCallbackHandler * agent_event) :=
  omap (fun e => match e with
                 | on_agent_event h ev => Some (h, ev)
                 | _ => None
                 end) t.

(** What the history loop draws. *)
Definition history_trace (l : list message) : list effect :=
  map (fun m => st_chat_message_write (role m) (content m)) l.

(** What one pass of the example loop draws. *)
Definition example_button_effect (ie : nat * string) : effect :=
  st_button ("Example " +:+ pretty (ie.1 + 1)%nat)
    (Some ("example_" +:+ pretty ie.1)).

(** The trace of a script piece that does not read the session. *)
Definition trace_of {A : Type} (m : script A) : list effect :=
  trace (m (on_session None)).2.

(** What a solve request records after the user record is appended. *)
Definition solve_trace (w : world) (ui : widgets) : list effect :=
  [ st_chat_message_write "user" (w_question ui);
    call_setup_tools (setup_tools (client w ui));
    call_initialize_agent (solver w ui);
    st_chat_message "assistant";
    st_container;
    call_agent_run (solver w ui) (w_question ui) [handler w ui] ] ++
  map (on_agent_event (handler w ui))
    (agent_run w (solver w ui) (w_question ui)).1 ++
  [ match (agent_run w (solver w ui) (w_question ui)).2 with
    | Returns response => st_write response
    | Raises e => st_error ("Error generating response: " +:+ e)
    end ].

(** The example whose button was pressed, with its index. *)
Definition example_chosen (ui : widgets) : option (nat * string) :=
  match w_click ui with
  | ExampleClick i => pair i <$> example_problems !! i
  | _ => None
  end.

(** What an execution records up to the example tab, once the client is
    built, on a conversation [l]. *)
Definition prelude_trace (w : world) (ui : widgets) (l : list message)
  : list effect :=
  trace_of header ++ trace_of (configuration w ui) ++
  [new_ChatGroq (client w ui)] ++ history_trace l ++
  trace_of (question_tab ui).

(** What the example tab draws when none of its buttons is pressed. *)
Definition examples_trace : list effect :=
  st_write "Select an example problem:" ::
  map example_button_effect (enumerate example_problems).

(** What an execution records when the key is missing. *)
Definition gate_closed_trace (w : world) (ui : widgets) : list effect :=
  trace_of header ++ trace_of (configuration w ui) ++
  trace_of (api_key_gate "").

(** What an execution records when the client constructor raises [e]. *)
Definition llm_raises_trace (w : world) (ui : widgets) (e : string)
  : list effect :=
  trace_of header ++ trace_of (configuration w ui) ++
  [new_ChatGroq (client w ui);
   st_error ("Error initializing the AI model: " +:+ e)].

(** [s'] holds the conversation of [s] followed by further well-formed
    records. *)
Definition grows (s s' : script_state) : Prop :=
  exists appended,
    conversation (messages s') = conversation (messages s) ++ appended /\
    Forall chat_role appended.

(** A piece of the script that only ever appends to the conversation. *)
Definition append_only {A : Type} (m : script A) : Prop :=
  forall s, grows s (m s).2.

(** ** Scenarios *)

(** A world with a key in the environment, in which the agent thinks,
    calls the calculator and answers. *)
Definition answering_world : world :=
  {| environ_GROQ_API_KEY := Some "gsk_test";
     ChatGroq_raises := fun _ => None;
     agent_run := fun _ _ =>
       ([Thought "Isolate x"; Action "Calculator" "(15 - 5) / 2"],
        Returns "x = 5") |}.

(** The same world, but the agent run raises after its first thought. *)
Definition failing_world : world :=
  {| environ_GROQ_API_KEY := Some "gsk_test";
     ChatGroq_raises := fun _ => None;
     agent_run := fun _ _ => ([Thought "Isolate x"], Raises "Rate limit reached") |}.

(** A world without a key in the environment. *)
Definition keyless_world : world :=
  {| environ_GROQ_API_KEY := None;
     ChatGroq_raises := fun _ => None;
     agent_run := fun _ _ => ([], Returns "") |}.

(** The user typed [q] and pressed Solve Problem. *)
Definition typed_and_solved (q : string) : widgets :=
  {| w_api_key := None; w_model := None; w_temperature := None;
     w_show_reasoning := None; w_question := q; w_click := SolveClick |}.

(** The same with the reasoning checkbox unticked. *)
Definition solved_without_reasoning (q : string) : widgets :=
  {| w_api_key := None; w_model := None; w_temperature := None;
     w_show_reasoning := Some false; w_question := q; w_click := SolveClick |}.

(** The same with another model and temperature picked. *)
Definition solved_with_other_settings (q : string) : widgets :=
  {| w_api_key := None; w_model := Some 2%nat; w_temperature := Some 0.9%Q;
     w_show_reasoning := None; w_question := q; w_click := SolveClick |}.

(** The user pressed the button of example [i], the text area empty. *)
Definition example_clicked (i : nat) : widgets :=
  {| w_api_key := None; w_model := None; w_temperature := None;
     w_show_reasoning := None; w_question := ""; w_click := ExampleClick i |}.

(** The chat messages an execution draws with the one-line form
    [st.chat_message(role).write(content)], as records. What is written
    inside the block [with st.chat_message("assistant"):] of the solve
    handler is not counted here. *)
Definition drawn_messages (t : list effect) : list message :=
  omap (fun e => match e with
                 | st_chat_message_write name body => Some (Message name body)
                 | _ => None
                 end) t.

(** The heading that opens the sidebar footer. *)
Definition about_heading (e : effect) : bool :=
  match e with
  | st_sidebar_markdown body => String.eqb body "### About"
  | _ => false
  end.

(** The [key] arguments of the buttons an execution draws. *)
Definition button_keys (t : list effect) : list string :=
  omap (fun e => match e with
                 | st_button _ (Some key) => Some key
                 | _ => None
                 end) t.

(** A world with a key in the environment that the [ChatGroq] constructor
    rejects. *)
Definition rejecting_world : world :=
  {| environ_GROQ_API_KEY := Some "gsk_test";
     ChatGroq_raises := fun _ => Some "Invalid API key";
     agent_run := fun _ _ => ([], Returns "") |}.

(** The user moved the model drop-down and the temperature slider; no
    button is pressed. *)
Definition settings_changed : widgets :=
  {| w_api_key := None; w_model := Some 2%nat; w_temperature := Some 0.9%Q;
     w_show_reasoning := None; w_question := "2 + 2"; w_click := NoClick |}.

(** The user typed a key into the sidebar field; no button is pressed. *)
Definition key_typed : widgets :=
  {| w_api_key := Some "gsk_typed"; w_model := None; w_temperature := None;
     w_show_reasoning := None; w_question := ""; w_click := NoClick |}.

(** The user typed a key, picked a model and a temperature, typed [q] and
    pressed Solve Problem. *)
Definition configured_and_solved (q : string) : widgets :=
  {| w_api_key := Some "gsk_typed"; w_model := Some 3%nat;
     w_temperature := Some 0.7%Q; w_show_reasoning := None;
     w_question := q; w_click := SolveClick |}.

(** The widgets [ui] with the reasoning checkbox set to [b]. *)
Definition with_show_reasoning (b : bool) (ui : widgets) : widgets :=
  {| w_api_key := w_api_key ui; w_model := w_model ui;
     w_temperature := w_temperature ui;
     w_show_reasoning := Some b;
     w_question := w_question ui; w_click := w_click ui |}.

(** Whether an execution gets past the key gate and the construction of
    the model client. *)
Definition gets_past (step : world * widgets) : bool :=
  truthy (cfg_groq_api_key (read_config step.1 step.2)) &&
  bool_decide (ChatGroq_raises step.1 (client step.1 step.2) = None).

(** What the handlers of an execution past the gate append: the example
    whose button is pressed, or the question and the answer of a solve. *)
Definition appended_by (w : world) (ui : widgets) : list message :=
  match example_chosen ui with
  | Some ie => [Message "user" ie.2]
  | None =>
      if solve_pressed (w_click ui) && truthy (w_question ui)
      then [ Message "user" (w_question ui);
             Message "assistant"
               (reply (agent_run w (solver w ui) (w_question ui)).2) ]
      else []
  end.

(** * Properties *)

(** ** Running the monad *)

Lemma bind_run {A B : Type} (m : script A) (f : A -> script B) (s : script_state) :
  (m ≫= f) s =
  match m s with
  | (Normal a, s') => f a s'
  | (Stop, s') => (Stop, s')
  | (Rerun, s') => (Rerun, s')
  | (Uncaught e, s') => (Uncaught e, s')
  end.
Proof. reflexivity. Qed.

Lemma ret_run {A : Type} (a : A) (s : script_state) :
  (mret a : script A) s = (Normal a, s).
Proof. reflexivity. Qed.

Lemma emit_run (e : effect) (s : script_state) :
  emit e s = (Normal (), add_trace s [e]).
Proof. reflexivity. Qed.

Lemma add_trace_nil (s : script_state) : add_trace s [] = s.
Proof. destruct s; unfold add_trace; simpl; by rewrite app_nil_r. Qed.

Lemma add_trace_add_trace (s : script_state) (t1 t2 : list effect) :
  add_trace (add_trace s t1) t2 = add_trace s (t1 ++ t2).
Proof. unfold add_trace; simpl; by rewrite app_assoc. Qed.

Lemma truthy_nonempty (s : string) : truthy s = true <-> s <> "".
Proof. destruct s; simpl; split; congruence. Qed.

Lemma for_each_emit {A : Type} (l : list A) (f : A -> effect) (s : script_state) :
  for_each l (fun _ x => emit (f x)) () s = (Normal (), add_trace s (map f l)).
Proof.
  revert s; induction l as [|x l IH]; intros s; simpl.
  - by rewrite ret_run, add_trace_nil.
  - rewrite bind_run, emit_run; cbv beta iota.
    by rewrite IH, add_trace_add_trace.
Qed.

(** Executes the first piece of a sequence with the equation [lem]. *)
Ltac exec lem := rewrite bind_run, lem; cbv beta iota.

(** ** The pieces of the script *)

Section Pieces.
Variables (w : world) (ui : widgets).

Lemma header_run (s : script_state) :
  header s = (Normal (), add_trace s (trace_of header)).
Proof.
  unfold trace_of, header, emit, add_trace, mbind, script_bind; cbn.
  by rewrite <- !app_assoc.
Qed.

Lemma configuration_run (s : script_state) :
  configuration w ui s =
  (Normal (read_config w ui), add_trace s (trace_of (configuration w ui))).
Proof.
  unfold trace_of, configuration, sidebar_text_input, sidebar_selectbox,
    slider, checkbox, emit, add_trace, mbind, mret, script_ret, script_bind.
  cbn. by rewrite <- !app_assoc.
Qed.

Lemma api_key_gate_closed (k : string) (s : script_state) :
  truthy k = false ->
  api_key_gate k s = (Stop, add_trace s (trace_of (api_key_gate ""))).
Proof.
  intros Hk. unfold trace_of, api_key_gate. rewrite Hk.
  unfold emit, st_stop, add_trace, mbind, script_bind; cbn.
  by rewrite <- !app_assoc.
Qed.

Lemma api_key_gate_open (k : string) (s : script_state) :
  truthy k = true -> api_key_gate k s = (Normal (), s).
Proof. intros Hk. unfold api_key_gate. by rewrite Hk. Qed.

Lemma init_llm_ok (s : script_state) :
  ChatGroq_raises w (client w ui) = None ->
  init_llm w (read_config w ui) s =
  (Normal (client w ui), add_trace s [new_ChatGroq (client w ui)]).
Proof.
  intros Hok. unfold init_llm. fold (client w ui).
  exec emit_run. by rewrite Hok.
Qed.

Lemma init_llm_raises (e : string) (s : script_state) :
  ChatGroq_raises w (client w ui) = Some e ->
  init_llm w (read_config w ui) s =
  (Stop, add_trace s [new_ChatGroq (client w ui);
                      st_error ("Error initializing the AI model: " +:+ e)]).
Proof.
  intros Hno. unfold init_llm. fold (client w ui).
  exec emit_run. rewrite Hno. exec emit_run.
  by rewrite add_trace_add_trace.
Qed.

Lemma init_session_run (s : script_state) :
  init_session s =
  (Normal (), {| messages := Some (seed (messages s)); trace := trace s |}).
Proof.
  unfold init_session, messages_absent, set_messages, mbind, script_bind.
  destruct s as [[l|] t]; reflexivity.
Qed.

Lemma display_history_run (l : list message) (s : script_state) :
  messages s = Some l ->
  display_history s = (Normal (), add_trace s (history_trace l)).
Proof.
  intros Hl. unfold display_history.
  rewrite bind_run. unfold get_messages at 1. rewrite Hl.
  apply for_each_emit.
Qed.

Lemma question_tab_run (s : script_state) :
  question_tab ui s =
  (Normal (w_question ui, solve_pressed (w_click ui)),
   add_trace s (trace_of (question_tab ui))).
Proof.
  unfold trace_of, question_tab, text_area, button, emit, add_trace,
    mbind, mret, script_ret, script_bind.
  cbn. by rewrite <- !app_assoc.
Qed.

Lemma footer_run (s : script_state) :
  footer s = (Normal (), add_trace s (trace_of footer)).
Proof.
  unfold trace_of, footer, emit, add_trace, mbind, script_bind; cbn.
  by rewrite <- !app_assoc.
Qed.

Lemma messages_append_run (m : message) (l : list message) (s : script_state) :
  messages s = Some l ->
  messages_append m s =
  (Normal (), {| messages := Some (l ++ [m]); trace := trace s |}).
Proof.
  intros Hl. unfold messages_append, get_messages, set_messages, mbind,
    script_bind. by rewrite Hl.
Qed.

End Pieces.

(** ** The example loop *)

Section Examples.
Variables (w : world) (ui : widgets).

Lemma example_button_idle (vars : string * bool) (ie : nat * string)
    (s : script_state) :
  example_pressed ie.1 (w_click ui) = false ->
  example_button ui vars ie s =
  (Normal vars, add_trace s [example_button_effect ie]).
Proof.
  intros Hidle. unfold example_button, button.
  rewrite !bind_run, emit_run; cbv beta iota.
  rewrite ret_run, Hidle; cbv beta iota. apply ret_run.
Qed.

Lemma example_button_pressed (vars : string * bool) (ie : nat * string)
    (l : list message) (s : script_state) :
  example_pressed ie.1 (w_click ui) = true ->
  messages s = Some l ->
  example_button ui vars ie s =
  (Rerun, {| messages := Some (l ++ [Message "user" ie.2]);
             trace := trace s ++ [example_button_effect ie] |}).
Proof.
  intros Hpressed Hl. unfold example_button, button.
  rewrite !bind_run, emit_run; cbv beta iota.
  rewrite ret_run, Hpressed; cbv beta iota.
  rewrite bind_run, (messages_append_run _ l) by done.
  reflexivity.
Qed.

Lemma example_loop_idle (l : list (nat * string)) (vars : string * bool)
    (s : script_state) :
  Forall (fun ie => example_pressed ie.1 (w_click ui) = false) l ->
  for_each l (example_button ui) vars s =
  (Normal vars, add_trace s (map example_button_effect l)).
Proof.
  intros Hidle; revert s.
  induction Hidle as [|ie l Hie _ IH]; intros s; simpl.
  - by rewrite ret_run, add_trace_nil.
  - exec (example_button_idle vars ie s Hie).
    by rewrite IH, add_trace_add_trace.
Qed.

Lemma example_loop_pressed (l1 l2 : list (nat * string)) (ie : nat * string)
    (vars : string * bool) (msgs : list message) (s : script_state) :
  Forall (fun ie => example_pressed ie.1 (w_click ui) = false) l1 ->
  example_pressed ie.1 (w_click ui) = true ->
  messages s = Some msgs ->
  for_each (l1 ++ ie :: l2) (example_button ui) vars s =
  (Rerun, {| messages := Some (msgs ++ [Message "user" ie.2]);
             trace := trace s ++ map example_button_effect l1 ++
                      [example_button_effect ie] |}).
Proof.
  intros Hidle Hpressed; revert s.
  induction Hidle as [|ie' l1 Hie' _ IH]; intros s Hl; simpl.
  - by exec (example_button_pressed vars ie msgs s Hpressed Hl).
  - exec (example_button_idle vars ie' s Hie').
    rewrite IH by done. simpl. by rewrite <- app_assoc.
Qed.

Lemma no_example_chosen :
  example_chosen ui = None ->
  Forall (fun ie => example_pressed ie.1 (w_click ui) = false)
    (enumerate example_problems).
Proof.
  unfold example_chosen.
  destruct (w_click ui) as [| |i] eqn:Hclick; intros Hnone.
  - repeat constructor.
  - repeat constructor.
  - destruct i as [|[|[|[|i]]]]; try discriminate Hnone.
    repeat constructor.
Qed.

Lemma example_chosen_split (i : nat) (example : string) :
  example_chosen ui = Some (i, example) ->
  exists l1 l2,
    enumerate example_problems = l1 ++ (i, example) :: l2 /\
    Forall (fun ie => example_pressed ie.1 (w_click ui) = false) l1 /\
    example_pressed i (w_click ui) = true.
Proof.
  unfold example_chosen.
  destruct (w_click ui) as [| |j] eqn:Hclick; try discriminate.
  destruct j as [|[|[|[|j]]]]; intros [= <- <-].
  - exists [], (drop 1 (enumerate example_problems)).
    repeat split; constructor.
  - exists (take 1 (enumerate example_problems)),
           (drop 2 (enumerate example_problems)).
    repeat split; repeat constructor.
  - exists (take 2 (enumerate example_problems)),
           (drop 3 (enumerate example_problems)).
    repeat split; repeat constructor.
  - exists (take 3 (enumerate example_problems)),
           (drop 4 (enumerate example_problems)).
    repeat split; repeat constructor.
Qed.

Lemma examples_tab_idle (vars : string * bool) (s : script_state) :
  example_chosen ui = None ->
  examples_tab ui vars s =
  (Normal vars,
   add_trace s examples_trace).
Proof.
  intros Hnone. unfold examples_tab. exec emit_run.
  rewrite example_loop_idle by by apply no_example_chosen.
  by rewrite add_trace_add_trace.
Qed.

Lemma examples_tab_pressed (i : nat) (example : string)
    (vars : string * bool) (msgs : list message) (s : script_state) :
  example_chosen ui = Some (i, example) ->
  messages s = Some msgs ->
  exists t,
    examples_tab ui vars s =
    (Rerun, {| messages := Some (msgs ++ [Message "user" example]);
               trace := trace s ++ st_write "Select an example problem:" :: t |}) /\
    existsb solver_call t = false.
Proof.
  intros Hsome Hl.
  destruct (example_chosen_split i example Hsome) as (l1 & l2 & Hsplit & Hidle & Hpressed).
  exists (map example_button_effect l1 ++ [example_button_effect (i, example)]).
  split.
  - unfold examples_tab. exec emit_run.
    rewrite Hsplit.
    rewrite (example_loop_pressed l1 l2 (i, example) vars msgs) by done.
    simpl. by rewrite <- app_assoc.
  - rewrite existsb_app. simpl. rewrite orb_false_r.
    clear. induction l1 as [|ie l1 IH]; [done|]. simpl. exact IH.
Qed.

Lemma solve_request_run (msgs : list message) (s : script_state) :
  messages s = Some msgs ->
  solve_request w (client w ui) (cfg_show_reasoning (read_config w ui))
    (w_question ui) s =
  (Normal (),
   {| messages :=
        Some (msgs ++
              [ Message "user" (w_question ui);
                Message "assistant"
                  (reply (agent_run w (solver w ui) (w_question ui)).2) ]);
      trace := trace s ++ solve_trace w ui |}).
Proof.
  intros Hl. unfold solve_request.
  fold (solver w ui). fold (handler w ui).
  exec (messages_append_run (Message "user" (w_question ui)) msgs s Hl).
  repeat exec emit_run.
  exec @for_each_emit.
  unfold solve_trace, reply.
  destruct (agent_run w (solver w ui) (w_question ui)).2 as [response|e].
  - exec emit_run.
    erewrite messages_append_run by reflexivity.
    unfold add_trace; simpl. by rewrite <- !app_assoc.
  - exec emit_run.
    erewrite messages_append_run by reflexivity.
    unfold add_trace; simpl. by rewrite <- !app_assoc.
Qed.

End Examples.

(** ** One execution, case by case *)

Section Execution.
Variables (w : world) (ui : widgets).

Lemma app_gate_closed (s : script_state) :
  truthy (cfg_groq_api_key (read_config w ui)) = false ->
  app w ui s = (Stop, add_trace s (gate_closed_trace w ui)).
Proof.
  intros Hkey. unfold app, gate_closed_trace.
  exec header_run. exec configuration_run.
  rewrite bind_run, api_key_gate_closed by done.
  by rewrite !add_trace_add_trace, <- ?app_assoc.
Qed.

Lemma app_llm_raises (e : string) (s : script_state) :
  truthy (cfg_groq_api_key (read_config w ui)) = true ->
  ChatGroq_raises w (client w ui) = Some e ->
  app w ui s = (Stop, add_trace s (llm_raises_trace w ui e)).
Proof.
  intros Hkey Hraises. unfold app, llm_raises_trace.
  exec header_run. exec configuration_run.
  rewrite bind_run, api_key_gate_open by done.
  rewrite bind_run, (init_llm_raises _ _ e) by done.
  by rewrite !add_trace_add_trace, <- ?app_assoc.
Qed.

(** Past the key gate and the client construction the session is
    seeded, the history drawn and the question tab read. *)
Lemma app_past_gate (s : script_state) :
  truthy (cfg_groq_api_key (read_config w ui)) = true ->
  ChatGroq_raises w (client w ui) = None ->
  app w ui s =
  (vars ← examples_tab ui (w_question ui, solve_pressed (w_click ui));
   (if vars.2 && truthy vars.1
    then solve_request w (client w ui)
           (cfg_show_reasoning (read_config w ui)) vars.1
    else mret ());;
   footer)
    {| messages := Some (seed (messages s));
       trace := trace s ++ prelude_trace w ui (seed (messages s)) |}.
Proof.
  intros Hkey Hok. unfold app at 1.
  exec header_run. exec configuration_run.
  rewrite bind_run, api_key_gate_open by done.
  exec init_llm_ok; [|done].
  exec init_session_run.
  rewrite bind_run, (display_history_run (seed (messages s))) by done.
  exec question_tab_run.
  f_equal. unfold add_trace, prelude_trace; cbn [messages trace].
  f_equal. by rewrite <- !app_assoc.
Qed.

Lemma app_idle (s : script_state) :
  truthy (cfg_groq_api_key (read_config w ui)) = true ->
  ChatGroq_raises w (client w ui) = None ->
  example_chosen ui = None ->
  solve_pressed (w_click ui) && truthy (w_question ui) = false ->
  app w ui s =
  (Normal (),
   {| messages := Some (seed (messages s));
      trace := trace s ++ prelude_trace w ui (seed (messages s)) ++
               examples_trace ++ trace_of footer |}).
Proof.
  intros Hkey Hok Hnone Hoff. rewrite app_past_gate by done.
  exec examples_tab_idle; [|done].
  simpl fst; simpl snd. rewrite Hoff.
  exec @ret_run. rewrite footer_run.
  unfold add_trace; cbn [messages trace]. by rewrite <- !app_assoc.
Qed.

Lemma app_solve (s : script_state) :
  truthy (cfg_groq_api_key (read_config w ui)) = true ->
  ChatGroq_raises w (client w ui) = None ->
  w_click ui = SolveClick ->
  truthy (w_question ui) = true ->
  app w ui s =
  (Normal (),
   {| messages :=
        Some (seed (messages s) ++
              [ Message "user" (w_question ui);
                Message "assistant"
                  (reply (agent_run w (solver w ui) (w_question ui)).2) ]);
      trace := trace s ++ prelude_trace w ui (seed (messages s)) ++
               examples_trace ++ solve_trace w ui ++ trace_of footer |}).
Proof.
  intros Hkey Hok Hclick Hq. rewrite app_past_gate by done.
  exec examples_tab_idle; [|by unfold example_chosen; rewrite Hclick].
  simpl fst; simpl snd. rewrite Hclick, Hq. simpl andb. cbv iota.
  rewrite bind_run, (solve_request_run _ _ (seed (messages s))) by done.
  rewrite footer_run.
  unfold add_trace; cbn [messages trace]. by rewrite <- !app_assoc.
Qed.

Lemma app_example (i : nat) (example : string) (s : script_state) :
  truthy (cfg_groq_api_key (read_config w ui)) = true ->
  ChatGroq_raises w (client w ui) = None ->
  example_chosen ui = Some (i, example) ->
  exists t,
    app w ui s =
    (Rerun,
     {| messages := Some (seed (messages s) ++ [Message "user" example]);
        trace := trace s ++ prelude_trace w ui (seed (messages s)) ++
                 st_write "Select an example problem:" :: t |}) /\
    existsb solver_call t = false.
Proof.
  intros Hkey Hok Hsome.
  destruct (examples_tab_pressed ui i example
              (w_question ui, solve_pressed (w_click ui))
              (seed (messages s))
              {| messages := Some (seed (messages s));
                 trace := trace s ++ prelude_trace w ui (seed (messages s)) |}
              Hsome eq_refl) as (t & Hrun & Hquiet).
  exists t. split; [|done].
  rewrite app_past_gate by done.
  rewrite bind_run, Hrun. cbn [messages trace]. by rewrite <- app_assoc.
Qed.

End Execution.

(** ** The conversation only grows *)

Create HintDb append_only.

Lemma grows_refl (s : script_state) : grows s s.
Proof. exists []. by rewrite app_nil_r. Qed.

Lemma grows_trans (s1 s2 s3 : script_state) :
  grows s1 s2 -> grows s2 s3 -> grows s1 s3.
Proof.
  intros (a1 & H1 & Hr1) (a2 & H2 & Hr2). exists (a1 ++ a2). split.
  - by rewrite H2, H1, app_assoc.
  - by apply Forall_app.
Qed.

Lemma grows_same_messages (s s' : script_state) :
  messages s' = messages s -> grows s s'.
Proof. intros Heq. exists []. by rewrite Heq, app_nil_r. Qed.

Lemma append_only_ret {A : Type} (a : A) : append_only (mret a : script A).
Proof. intros s. apply grows_refl. Qed.

Lemma append_only_emit (e : effect) : append_only (emit e).
Proof. intros s. by apply grows_same_messages. Qed.

Lemma append_only_stop {A : Type} : append_only (@st_stop A).
Proof. intros s. apply grows_refl. Qed.

Lemma append_only_rerun {A : Type} : append_only (@st_experimental_rerun A).
Proof. intros s. apply grows_refl. Qed.

Lemma append_only_bind {A B : Type} (m : script A) (f : A -> script B) :
  append_only m -> (forall a, append_only (f a)) -> append_only (m ≫= f).
Proof.
  intros Hm Hf s. rewrite bind_run.
  specialize (Hm s). destruct (m s) as [[a| | |e] s']; try exact Hm.
  eapply grows_trans; [exact Hm | apply Hf].
Qed.

Lemma append_only_for_each {A S : Type} (l : list A) (body : S -> A -> script S)
    (acc : S) :
  (forall acc x, append_only (body acc x)) -> append_only (for_each l body acc).
Proof.
  intros Hbody; revert acc. induction l as [|x l IH]; intros acc; simpl.
  - apply append_only_ret.
  - apply append_only_bind; [apply Hbody | exact IH].
Qed.

Lemma append_only_messages_append (m : message) :
  chat_role m -> append_only (messages_append m).
Proof.
  intros Hrole s. unfold messages_append, get_messages, set_messages.
  rewrite bind_run. destruct (messages s) as [l|] eqn:Hl; simpl.
  - exists [m]. rewrite Hl. split; [done | by constructor].
  - by apply grows_same_messages.
Qed.

Lemma append_only_init_session : append_only init_session.
Proof.
  intros s. rewrite init_session_run. simpl.
  destruct (messages s) as [l|] eqn:Hl.
  - apply grows_same_messages. simpl. by rewrite Hl.
  - exists [greeting]. rewrite Hl. simpl. split; [done|].
    constructor; [by right | constructor].
Qed.

Lemma append_only_get_messages : append_only get_messages.
Proof.
  intros s. unfold get_messages. destruct (messages s); apply grows_refl.
Qed.

#[local] Hint Resolve append_only_emit append_only_stop append_only_rerun
  append_only_init_session append_only_get_messages : append_only.
#[local] Hint Extern 1 (append_only (mret _)) =>
  apply append_only_ret : append_only.
#[local] Hint Extern 2 (append_only (_ ≫= _)) =>
  apply append_only_bind; [|intros ?] : append_only.
#[local] Hint Extern 2 (append_only (for_each _ _ _)) =>
  apply append_only_for_each; intros ? ? : append_only.
#[local] Hint Extern 1 (append_only (messages_append _)) =>
  apply append_only_messages_append; [by (left + right)] : append_only.
#[local] Hint Extern 3 (append_only (if ?b then _ else _)) =>
  destruct b : append_only.
#[local] Hint Extern 3 (append_only (match ?o with _ => _ end)) =>
  destruct o : append_only.

Lemma append_only_app (w : world) (ui : widgets) : append_only (app w ui).
Proof.
  unfold app, header, configuration, api_key_gate, init_llm, display_history,
    question_tab, examples_tab, example_button, solve_request, footer,
    sidebar_text_input, sidebar_selectbox, slider, checkbox, text_area, button.
  auto 30 with append_only.
Qed.

Lemma script_runner_grows (fuel : nat) (w : world) (ui : widgets)
    (s : script_state) (r : control unit * script_state) :
  script_runner fuel w ui s = Some r -> grows s r.2.
Proof.
  revert ui s. induction fuel as [|fuel IH]; intros ui s; simpl; [done|].
  pose proof (append_only_app w ui s) as Hrun.
  destruct (app w ui s) as [[[]| | |e] s'] eqn:Happ; simpl in Hrun.
  - by intros [= <-].
  - by intros [= <-].
  - intros Hrerun. eapply grows_trans; [exact Hrun | by eapply IH].
  - by intros [= <-].
Qed.

(** ** The runner terminates *)

Lemma app_no_click_no_rerun (w : world) (ui : widgets) (s : script_state) :
  w_click ui = NoClick -> (app w ui s).1 <> Rerun.
Proof.
  intros Hclick.
  destruct (truthy (cfg_groq_api_key (read_config w ui))) eqn:Hkey.
  - destruct (ChatGroq_raises w (client w ui)) as [e|] eqn:Hllm.
    + by rewrite (app_llm_raises w ui e).
    + rewrite app_idle; try done.
      * unfold example_chosen. by rewrite Hclick.
      * by rewrite Hclick.
  - by rewrite app_gate_closed.
Qed.

Lemma script_runner_total (w : world) (ui : widgets) (s : script_state) :
  exists r, script_runner 2 w ui s = Some r /\ r.1 <> Rerun.
Proof.
  simpl. destruct (app w ui s) as [[[]| | |e] s'] eqn:Happ.
  - eexists; split; [reflexivity | done].
  - eexists; split; [reflexivity | done].
  - pose proof (app_no_click_no_rerun w (release_buttons ui) s' eq_refl) as Hno.
    destruct (app w (release_buttons ui) s') as [[[]| | |e] s''];
      try (by destruct Hno);
      eexists; (split; [reflexivity | done]).
  - eexists; split; [reflexivity | done].
Qed.

Lemma session_run_total (steps : list (world * widgets))
    (session : option (list message)) :
  exists session', session_run 2 steps session = Some session'.
Proof.
  revert session. induction steps as [|step steps IH]; intros session.
  - by eexists.
  - cbn [session_run].
    destruct (script_runner_total step.1 step.2 (on_session session))
      as (r & -> & _).
    apply IH.
Qed.

Lemma session_run_grows (fuel : nat) (steps : list (world * widgets))
    (session session' : option (list message)) :
  session_run fuel steps session = Some session' ->
  exists appended,
    conversation session' = conversation session ++ appended /\
    Forall chat_role appended.
Proof.
  revert session. induction steps as [|step steps IH]; intros session.
  - intros [= <-]. exists []. by rewrite app_nil_r.
  - cbn [session_run].
    destruct (script_runner fuel step.1 step.2 (on_session session))
      as [r|] eqn:Hrun; [|done].
    intros Hrest. apply script_runner_grows in Hrun.
    destruct Hrun as (a1 & H1 & Hr1).
    destruct (IH _ Hrest) as (a2 & H2 & Hr2).
    exists (a1 ++ a2). split.
    + rewrite H2, H1. simpl. by rewrite app_assoc.
    + by apply Forall_app.
Qed.

(** ** Auxiliary facts about runs and traces *)

Lemma script_runner_done (fuel : nat) (w : world) (ui : widgets)
    (s s' : script_state) (c : control unit) :
  app w ui s = (c, s') -> c <> Rerun ->
  script_runner (S fuel) w ui s = Some (c, s').
Proof.
  intros Happ Hc. simpl. rewrite Happ. by destruct c.
Qed.

Lemma read_config_release_buttons (w : world) (ui : widgets) :
  read_config w (release_buttons ui) = read_config w ui.
Proof. reflexivity. Qed.

Lemma quiet_history (l : list message) :
  existsb solver_call (history_trace l) = false.
Proof. induction l as [|m l IH]; [done | exact IH]. Qed.

Lemma quiet_prelude (w : world) (ui : widgets) (l : list message) :
  existsb solver_call (prelude_trace w ui l) = false.
Proof.
  unfold prelude_trace. rewrite !existsb_app, quiet_history. reflexivity.
Qed.

Lemma quiet_examples : existsb solver_call examples_trace = false.
Proof. reflexivity. Qed.

Lemma quiet_footer : existsb solver_call (trace_of footer) = false.
Proof. reflexivity. Qed.

Lemma quiet_gate_closed (w : world) (ui : widgets) :
  existsb solver_call (gate_closed_trace w ui) = false.
Proof. reflexivity. Qed.

Lemma quiet_llm_raises (w : world) (ui : widgets) (e : string) :
  existsb solver_call (llm_raises_trace w ui e) = false.
Proof. reflexivity. Qed.

Lemma delivered_app (t1 t2 : list effect) :
  delivered (t1 ++ t2) = delivered t1 ++ delivered t2.
Proof. apply omap_app. Qed.

Lemma delivered_quiet (t : list effect) :
  existsb solver_call t = false -> delivered t = [].
Proof.
  induction t as [|e t IH]; [done|]. simpl.
  intros [He Ht]%orb_false_iff. specialize (IH Ht).
  destruct e; try discriminate He; exact IH.
Qed.

Lemma delivered_events (h : StreamlitCallbackHandler) (evs : list agent_event) :
  delivered (map (on_agent_event h) evs) = map (pair h) evs.
Proof.
  induction evs as [|ev evs IH]; [done|].
  unfold delivered; simpl. f_equal. exact IH.
Qed.

Lemma delivered_solve_trace (w : world) (ui : widgets) :
  delivered (solve_trace w ui) =
  map (pair (handler w ui)) (agent_run w (solver w ui) (w_question ui)).1.
Proof.
  unfold solve_trace. rewrite !delivered_app, delivered_events.
  destruct (agent_run w (solver w ui) (w_question ui)).2;
    unfold delivered; simpl; by rewrite app_nil_r.
Qed.

Lemma prefix_refl (s : string) : String.prefix s s = true.
Proof.
  induction s as [|a s IH]; simpl; [done|].
  by destruct (Ascii.ascii_dec a a).
Qed.

Lemma contains_refl (s : string) : contains s s = true.
Proof.
  destruct s as [|a s]; [done|].
  cbn [contains]. by rewrite prefix_refl.
Qed.

Lemma contains_append (p needle : string) :
  contains needle (p +:+ needle) = true.
Proof.
  induction p as [|a p IH]; simpl.
  - apply contains_refl.
  - rewrite IH. apply orb_true_r.
Qed.

(** The appends of lines 212 and 218 always find the conversation that
    line 178 created: no execution ends in an uncaught exception. *)
Lemma app_never_uncaught (w : world) (ui : widgets) (s : script_state)
    (e : string) :
  (app w ui s).1 <> Uncaught e.
Proof.
  destruct (truthy (cfg_groq_api_key (read_config w ui))) eqn:Hkey;
    [|by rewrite app_gate_closed].
  destruct (ChatGroq_raises w (client w ui)) as [e'|] eqn:Hllm;
    [by rewrite (app_llm_raises w ui e')|].
  destruct (example_chosen ui) as [[i example]|] eqn:Hchosen.
  - destruct (app_example w ui i example s Hkey Hllm Hchosen) as (t & -> & _).
    done.
  - destruct (solve_pressed (w_click ui) && truthy (w_question ui)) eqn:Hsolve.
    + apply andb_true_iff in Hsolve as [Hpressed Hq].
      rewrite app_solve; [done | done | done | | done].
      by destruct (w_click ui).
    + by rewrite app_idle.
Qed.

(** Two solve invocations under different settings, the second one with a
    raising run. *)
Example two_solves_under_different_settings :
  client failing_world (solved_with_other_settings "3 * 3") =
    {| model := "llama3-70b-8192"; groq_api_key := "gsk_test";
       temperature := 0.9%Q; streaming := true |} /\
  session_run 2
    [ (answering_world, fresh_widgets);
      (answering_world, typed_and_solved "2 + 2");
      (failing_world, solved_with_other_settings "3 * 3") ] None =
  Some (Some [ greeting;
               Message "user" "2 + 2";
               Message "assistant" "x = 5";
               Message "user" "3 * 3";
               Message "assistant"
                 "Error generating response: Rate limit reached" ]).
Proof. split; vm_compute; reflexivity. Qed.

(** * The claims *)

(** C1. A solve invocation with a non-empty question, after the model
    client was constructed, appends exactly one user record and then
    exactly one assistant record to the conversation, whether the agent
    run returns (the record holds the response) or raises (the record
    holds the error message). *)
Theorem solve_appends_user_then_assistant (w : world) (ui : widgets)
    (session : option (list message)) :
  cfg_groq_api_key (read_config w ui) <> "" ->
  ChatGroq_raises w (client w ui) = None ->
  w_click ui = SolveClick ->
  w_question ui <> "" ->
  exists t,
    script_runner 2 w ui (on_session session) =
    Some (Normal (),
          {| messages :=
               Some (seed session ++
                     [ Message "user" (w_question ui);
                       Message "assistant"
                         (reply (agent_run w (solver w ui) (w_question ui)).2) ]);
             trace := t |}).
Proof.
  intros Hkey%truthy_nonempty Hok Hclick Hq%truthy_nonempty.
  eexists. apply script_runner_done; [|done].
  by apply app_solve.
Qed.

Lemma solve_appends_user_then_assistant_witness :
  cfg_groq_api_key (read_config answering_world (typed_and_solved "2 + 2")) <> "" /\
  exists t,
    script_runner 2 answering_world (typed_and_solved "2 + 2") (on_session None) =
    Some (Normal (),
          {| messages :=
               Some [ greeting; Message "user" "2 + 2";
                      Message "assistant" "x = 5" ];
             trace := t |}).
Proof.
  split; [done|].
  apply (solve_appends_user_then_assistant answering_world
           (typed_and_solved "2 + 2") None); [done | reflexivity | reflexivity | done].
Defined.

(** C2. When the agent run raises, the handler appends exactly one
    assistant record, whose content contains the text of the error, and
    the invocation leaves nothing else in the conversation than the user
    record and that assistant record. *)
Theorem run_error_recorded_once (w : world) (ui : widgets)
    (session : option (list message)) (e : string) :
  cfg_groq_api_key (read_config w ui) <> "" ->
  ChatGroq_raises w (client w ui) = None ->
  w_click ui = SolveClick ->
  w_question ui <> "" ->
  (agent_run w (solver w ui) (w_question ui)).2 = Raises e ->
  exists t answer,
    script_runner 2 w ui (on_session session) =
    Some (Normal (),
          {| messages :=
               Some (seed session ++
                     [ Message "user" (w_question ui);
                       Message "assistant" answer ]);
             trace := t |}) /\
    contains e answer = true.
Proof.
  intros Hkey%truthy_nonempty Hok Hclick Hq%truthy_nonempty Hraises.
  eexists _, ("Error generating response: " +:+ e). split.
  - apply script_runner_done; [|done].
    rewrite (app_solve w ui) by done. by rewrite Hraises.
  - apply contains_append.
Qed.

Lemma run_error_recorded_once_witness :
  (agent_run failing_world (solver failing_world (typed_and_solved "2 + 2"))
     "2 + 2").2 = Raises "Rate limit reached" /\
  exists t answer,
    script_runner 2 failing_world (typed_and_solved "2 + 2") (on_session None) =
    Some (Normal (),
          {| messages :=
               Some [ greeting; Message "user" "2 + 2";
                      Message "assistant" answer ];
             trace := t |}) /\
    contains "Rate limit reached" answer = true.
Proof.
  split; [reflexivity|].
  apply (run_error_recorded_once failing_world (typed_and_solved "2 + 2") None
           "Rate limit reached"); [done | reflexivity | reflexivity | done | reflexivity].
Defined.

(** C3. For every model client, [setup_tools] returns exactly five tools,
    in the order encyclopedia lookup (top 2 results), academic-paper lookup
    (top 1 result), web search, calculator, step reasoning; nothing in the
    client's configuration changes the count or the order. *)
Theorem setup_tools_five_in_fixed_order (llm : ChatGroq) :
  length (setup_tools llm) = 5%nat /\
  map kind_of (setup_tools llm) =
  [ EncyclopediaLookup 2; AcademicPaperLookup 1; WebSearch; Calculator;
    StepReasoning ].
Proof. split; reflexivity. Qed.

(** C4. With an empty API key the execution stops at the key gate: the
    help message is shown, no model client is constructed, none of the
    question input widgets is drawn, and the session is left as it was. *)
Theorem missing_api_key_halts (w : world) (ui : widgets)
    (session : option (list message)) :
  cfg_groq_api_key (read_config w ui) = "" ->
  exists t,
    script_runner 2 w ui (on_session session) =
    Some (Stop, {| messages := session; trace := t |}) /\
    st_info "Please add your Groq API key in the sidebar to continue" ∈ t /\
    existsb client_construction t = false /\
    existsb chat_input t = false.
Proof.
  intros Hkey.
  exists (gate_closed_trace w ui). split; [|split; [|split]].
  - apply script_runner_done; [|done].
    rewrite app_gate_closed by by rewrite Hkey.
    reflexivity.
  - apply list_elem_of_In. unfold gate_closed_trace.
    apply in_or_app; right. apply in_or_app; right. by left.
  - reflexivity.
  - reflexivity.
Qed.

Lemma missing_api_key_halts_witness :
  cfg_groq_api_key (read_config keyless_world fresh_widgets) = "" /\
  exists t,
    script_runner 2 keyless_world fresh_widgets (on_session None) =
    Some (Stop, {| messages := None; trace := t |}) /\
    st_info "Please add your Groq API key in the sidebar to continue" ∈ t /\
    existsb client_construction t = false /\
    existsb chat_input t = false.
Proof.
  split; [reflexivity|].
  apply (missing_api_key_halts keyless_world fresh_widgets None); reflexivity.
Defined.

(** C5. What pressing the button of a canned example does: the example is
    appended as a user record, the script is rerun, and the rerun, in which
    no button is pressed, neither builds nor runs the agent; no assistant
    record follows. Typing the same text and pressing Solve Problem appends
    the user record and an assistant record (C1). *)
Theorem example_click_appends_question_only (w : world) (ui : widgets)
    (session : option (list message)) (i : nat) (example : string) :
  cfg_groq_api_key (read_config w ui) <> "" ->
  ChatGroq_raises w (client w ui) = None ->
  w_click ui = ExampleClick i ->
  example_problems !! i = Some example ->
  exists t,
    script_runner 2 w ui (on_session session) =
    Some (Normal (),
          {| messages := Some (seed session ++ [Message "user" example]);
             trace := t |}) /\
    existsb solver_call t = false.
Proof.
  intros Hkey%truthy_nonempty Hok Hclick Hex.
  assert (example_chosen ui = Some (i, example)) as Hchosen
    by (unfold example_chosen; by rewrite Hclick, Hex).
  destruct (app_example w ui i example (on_session session) Hkey Hok Hchosen)
    as (t1 & Hfirst & Hquiet).
  eexists. split.
  - cbn [script_runner]. rewrite Hfirst.
    rewrite (app_idle w (release_buttons ui)); [reflexivity|done|done|done|done].
  - cbn [seed messages trace on_session default].
    rewrite !existsb_app. cbn [existsb solver_call].
    by rewrite !quiet_prelude, Hquiet, quiet_examples, quiet_footer.
Qed.

Lemma example_click_appends_question_only_witness :
  example_problems !! 0%nat = Some "Solve for x: 2x + 5 = 15" /\
  exists t,
    script_runner 2 answering_world (example_clicked 0) (on_session None) =
    Some (Normal (),
          {| messages :=
               Some [greeting; Message "user" "Solve for x: 2x + 5 = 15"];
             trace := t |}) /\
    existsb solver_call t = false.
Proof.
  split; [reflexivity|].
  apply (example_click_appends_question_only answering_world (example_clicked 0)
           None 0 "Solve for x: 2x + 5 = 15");
    [done | reflexivity | reflexivity | reflexivity].
Defined.

(** C6, as stated, fails: with the reasoning checkbox unticked the agent's
    thought and action events still reach the callback handler of the
    assistant container. *)
Lemma unticked_reasoning_still_delivered :
  ~ (forall (w : world) (ui : widgets) (session msgs : option (list message))
       (t : list effect),
       cfg_groq_api_key (read_config w ui) <> "" ->
       ChatGroq_raises w (client w ui) = None ->
       w_click ui = SolveClick ->
       w_question ui <> "" ->
       cfg_show_reasoning (read_config w ui) = false ->
       script_runner 2 w ui (on_session session) =
       Some (Normal (), {| messages := msgs; trace := t |}) ->
       delivered t = []).
Proof.
  intros Hclaim.
  pose (ui := solved_without_reasoning "2 + 2").
  pose (r := script_runner 2 answering_world ui (on_session None)).
  assert (exists msgs t, r = Some (Normal (), {| messages := msgs; trace := t |}) /\
                         delivered t <> []) as (msgs & t & Hr & Hne).
  { eexists _, _. split; [vm_compute; reflexivity | discriminate]. }
  apply Hne.
  by apply (Hclaim answering_world ui None msgs t).
Qed.

(** C6, amended. In every solve invocation the callback handler is passed
    to the agent run and every thought and action event of the run is
    delivered to it, whether the reasoning checkbox is ticked or not. The
    value [b] of the checkbox enters the execution in exactly two places,
    the handler's [expand_new_thoughts] option and the agent's [verbose]
    option: the client, the tools, every other option of the agent and
    every other effect are those of the other widget values, whatever [b]
    is, apart from what the agent run returns for the agent it is given. *)
Theorem agent_events_always_delivered (w : world) (ui : widgets)
    (session : option (list message)) (b : bool) :
  cfg_groq_api_key (read_config w ui) <> "" ->
  ChatGroq_raises w (client w ui) = None ->
  w_click ui = SolveClick ->
  w_question ui <> "" ->
  let a :=
    {| tools := setup_tools (client w ui);
       agent_llm := client w ui;
       agent_type := ZERO_SHOT_REACT_DESCRIPTION;
       verbose := b;
       handle_parsing_errors := true;
       system_message := {| sm_content := tutor_instructions |};
       early_stopping_method := "generate" |} in
  let cb := {| expand_new_thoughts := b |} in
  let run := agent_run w a (w_question ui) in
  let t :=
    prelude_trace w ui (seed session) ++ examples_trace ++
    [ st_chat_message_write "user" (w_question ui);
      call_setup_tools (setup_tools (client w ui));
      call_initialize_agent a;
      st_chat_message "assistant";
      st_container;
      call_agent_run a (w_question ui) [cb] ] ++
    map (on_agent_event cb) run.1 ++
    [ match run.2 with
      | Returns response => st_write response
      | Raises e => st_error ("Error generating response: " +:+ e)
      end ] ++
    trace_of footer in
  script_runner 2 w (with_show_reasoning b ui) (on_session session) =
  Some (Normal (),
        {| messages :=
             Some (seed session ++
                   [ Message "user" (w_question ui);
                     Message "assistant" (reply run.2) ]);
           trace := t |}) /\
  delivered t = map (pair cb) run.1.
Proof.
  intros Hkey%truthy_nonempty Hok Hclick Hq%truthy_nonempty a cb run t.
  split.
  - apply script_runner_done; [|done].
    rewrite (app_solve w (with_show_reasoning b ui)) by done.
    unfold t, solve_trace. cbn [trace on_session]. rewrite app_nil_l.
    by rewrite <- !app_assoc.
  - unfold t. rewrite !delivered_app.
    rewrite (delivered_quiet _ (quiet_prelude w ui _)).
    rewrite (delivered_quiet _ quiet_examples).
    rewrite (delivered_quiet _ quiet_footer).
    rewrite delivered_events.
    change (delivered [ st_chat_message_write "user" (w_question ui);
                        call_setup_tools (setup_tools (client w ui));
                        call_initialize_agent a;
                        st_chat_message "assistant";
                        st_container;
                        call_agent_run a (w_question ui) [cb] ])
      with (@nil (StreamlitCallbackHandler * agent_event)).
    rewrite !app_nil_l.
    destruct (run.2); by rewrite app_nil_r.
Qed.

Lemma agent_events_always_delivered_witness :
  w_question (typed_and_solved "2 + 2") <> "" /\
  exists t,
    script_runner 2 answering_world
      (with_show_reasoning false (typed_and_solved "2 + 2")) (on_session None) =
    Some (Normal (),
          {| messages :=
               Some [ greeting; Message "user" "2 + 2";
                      Message "assistant" "x = 5" ];
             trace := t |}) /\
    delivered t =
    [ ({| expand_new_thoughts := false |}, Thought "Isolate x");
      ({| expand_new_thoughts := false |}, Action "Calculator" "(15 - 5) / 2") ].
Proof.
  split; [done|].
  eexists.
  apply (agent_events_always_delivered answering_world
           (typed_and_solved "2 + 2") None false);
    [done | reflexivity | reflexivity | done].
Defined.

(** C7. The conversation is append-only: after any sequence of
    interactions (session start, example selection, solve with a returning
    or a raising run, in any world) the conversation is the one before
    followed by appended records, each with role user or assistant; no
    earlier record is removed, moved or rewritten. *)
Theorem conversation_append_only (steps : list (world * widgets))
    (session : option (list message)) :
  exists session' appended,
    session_run 2 steps session = Some session' /\
    conversation session' = conversation session ++ appended /\
    Forall chat_role appended.
Proof.
  destruct (session_run_total steps session) as (session' & Hrun).
  destruct (session_run_grows 2 steps session session' Hrun)
    as (appended & Happ & Hroles).
  by exists session', appended.
Qed.

(** C8. Pressing Solve Problem with an empty question starts no solve:
    the session holds what line 178 leaves (the conversation as it was, or
    the greeting alone when it did not exist and the execution got that
    far), and no tools are built, no agent is built or run. *)
Theorem empty_question_starts_no_solve (w : world) (ui : widgets)
    (session : option (list message)) :
  w_click ui = SolveClick ->
  w_question ui = "" ->
  exists c t,
    script_runner 2 w ui (on_session session) =
    Some (c,
          {| messages :=
               if truthy (cfg_groq_api_key (read_config w ui))
               then match ChatGroq_raises w (client w ui) with
                    | None => Some (seed session)
                    | Some _ => session
                    end
               else session;
             trace := t |}) /\
    existsb solver_call t = false.
Proof.
  intros Hclick Hq.
  destruct (truthy (cfg_groq_api_key (read_config w ui))) eqn:Hkey.
  - destruct (ChatGroq_raises w (client w ui)) as [e|] eqn:Hllm.
    + eexists _, _. split.
      * apply script_runner_done; [by apply (app_llm_raises w ui e)|done].
      * apply quiet_llm_raises.
    + eexists _, _. split.
      * apply script_runner_done.
        -- apply app_idle; [done | done | | ].
           ++ unfold example_chosen. by rewrite Hclick.
           ++ by rewrite Hq, andb_false_r.
        -- done.
      * cbn [trace on_session]. rewrite app_nil_l, !existsb_app.
        by rewrite quiet_prelude, quiet_examples, quiet_footer.
  - eexists _, _. split.
    + apply script_runner_done; [by apply app_gate_closed|done].
    + apply quiet_gate_closed.
Qed.

Lemma empty_question_starts_no_solve_witness :
  w_question (typed_and_solved "") = "" /\
  exists c t,
    script_runner 2 answering_world (typed_and_solved "")
      (on_session (Some [greeting])) =
    Some (c, {| messages := Some [greeting]; trace := t |}) /\
    existsb solver_call t = false.
Proof.
  split; [reflexivity|].
  apply (empty_question_starts_no_solve answering_world (typed_and_solved "")
           (Some [greeting])); reflexivity.
Defined.

(** C9. The records of a completed invocation are not touched by what
    follows under another configuration: after a first interaction, any
    further interactions, with any model, temperature and other widget
    values, leave a conversation that starts with exactly the records the
    first interaction left. *)
Theorem completed_records_survive_config_change (w1 w2 : world)
    (ui1 ui2 : widgets) (between : list (world * widgets))
    (session : option (list message)) :
  exists after1 final,
    session_run 2 [(w1, ui1)] session = Some after1 /\
    session_run 2 (between ++ [(w2, ui2)]) after1 = Some final /\
    take (length (conversation after1)) (conversation final) =
    conversation after1.
Proof.
  destruct (session_run_total [(w1, ui1)] session) as (after1 & Hfirst).
  destruct (session_run_total (between ++ [(w2, ui2)]) after1)
    as (final & Hlater).
  exists after1, final. split; [done|]. split; [done|].
  destruct (session_run_grows 2 _ _ _ Hlater) as (appended & -> & _).
  by rewrite take_app_length.
Qed.

(** The conversation an interaction leaves, for every world, widgets and
    session. *)
Lemma interaction_messages (w : world) (ui : widgets)
    (session : option (list message)) :
  exists c t,
    script_runner 2 w ui (on_session session) =
    Some (c,
          {| messages :=
               if gets_past (w, ui)
               then Some (seed session ++ appended_by w ui)
               else session;
             trace := t |}).
Proof.
  unfold gets_past; cbn [fst snd].
  destruct (truthy (cfg_groq_api_key (read_config w ui))) eqn:Hkey; cbn [andb].
  - destruct (ChatGroq_raises w (client w ui)) as [e|] eqn:Hllm.
    + eexists _, _.
      apply script_runner_done; [by apply (app_llm_raises w ui e)|done].
    + rewrite bool_decide_eq_true_2 by done. unfold appended_by.
      destruct (example_chosen ui) as [[i example]|] eqn:Hchosen.
      * destruct (app_example w ui i example (on_session session)
                    Hkey Hllm Hchosen) as (t1 & Hfirst & _).
        eexists _, _. cbn [script_runner]. rewrite Hfirst.
        rewrite (app_idle w (release_buttons ui)); [|done|done|done|done].
        reflexivity.
      * destruct (solve_pressed (w_click ui) && truthy (w_question ui))
          eqn:Hsolve.
        -- apply andb_true_iff in Hsolve as [Hclick Hq].
           assert (w_click ui = SolveClick) by by destruct (w_click ui).
           eexists _, _. apply script_runner_done; [by apply app_solve|done].
        -- eexists _, _. apply script_runner_done.
           ++ rewrite app_idle by done. by rewrite app_nil_r.
           ++ done.
  - eexists _, _.
    apply script_runner_done; [by apply app_gate_closed|done].
Qed.

(** A session has no conversation exactly when it had none and no
    execution got past the key gate and the client construction. *)
Lemma session_without_conversation (steps : list (world * widgets))
    (session : option (list message)) :
  exists session',
    session_run 2 steps session = Some session' /\
    (session' = None <-> session = None /\ existsb gets_past steps = false).
Proof.
  revert session. induction steps as [|[w ui] steps IH]; intros session.
  - exists session. split; [done|]. cbn [existsb]. intuition.
  - cbn [session_run fst snd existsb].
    destruct (interaction_messages w ui session) as (c & t & ->).
    cbn [snd messages].
    destruct (gets_past (w, ui)) eqn:Hpast; cbn [orb].
    + destruct (IH (Some (seed session ++ appended_by w ui)))
        as (session' & Hrun & Hiff).
      exists session'. split; [done|]. rewrite Hiff. intuition congruence.
    + apply IH.
Qed.

(** C10, as stated, fails: a fresh session without an API key stops at the
    key gate and holds no conversation at all. *)
Lemma fresh_session_without_key_not_seeded :
  ~ (forall w : world,
       exists c t,
         script_runner 2 w fresh_widgets (on_session None) =
         Some (c, {| messages := Some [greeting]; trace := t |})).
Proof.
  intros Hclaim. destruct (Hclaim keyless_world) as (c & t & Hrun).
  vm_compute in Hrun. discriminate Hrun.
Qed.

(** C10, amended. In a fresh session the sidebar reads fixed defaults:
    the model is gemma2-9b-it, the first of the four options; the
    temperature is 0.2, on a slider from 0 to 1 in steps of 0.1; the
    reasoning checkbox is ticked. The conversation does not exist as long
    as every execution stops at the key gate or at the construction of the
    model client; the execution that gets past both, whatever the widgets
    hold by then (a key typed into the field, say), seeds it with exactly
    one record, the assistant greeting, before its own handlers append
    anything. *)
Theorem fresh_session_defaults (w : world) (ui : widgets)
    (steps : list (world * widgets)) :
  (forall s,
     (configuration w fresh_widgets s).1 =
     Normal {| cfg_groq_api_key := os_getenv w "";
               cfg_selected_model := "gemma2-9b-it";
               cfg_temperature := 0.2%Q;
               cfg_show_reasoning := true |}) /\
  model_options.*1 =
    ["gemma2-9b-it"; "llama3-8b-8192"; "llama3-70b-8192"; "mixtral-8x7b-32768"] /\
  st_slider "Temperature" 0.0%Q 1.0%Q 0.2%Q 0.1%Q
    ∈ trace_of (configuration w fresh_widgets) /\
  st_checkbox "Show AI reasoning steps" true
    ∈ trace_of (configuration w fresh_widgets) /\
  role greeting = "assistant" /\
  (exists c t,
     script_runner 2 w ui (on_session None) =
     Some (c,
           {| messages :=
                if truthy (cfg_groq_api_key (read_config w ui))
                then match ChatGroq_raises w (client w ui) with
                     | None => Some (greeting :: appended_by w ui)
                     | Some _ => None
                     end
                else None;
              trace := t |})) /\
  appended_by w fresh_widgets = [] /\
  (exists session',
     session_run 2 steps None = Some session' /\
     (session' = None <-> existsb gets_past steps = false)).
Proof.
  split; [|split; [|split; [|split; [|split; [|split; [|split]]]]]].
  - intros s. by rewrite configuration_run.
  - reflexivity.
  - by apply (list_elem_of_lookup_2 _ 5).
  - by apply (list_elem_of_lookup_2 _ 6).
  - reflexivity.
  - destruct (interaction_messages w ui None) as (c & t & Hrun).
    exists c, t. rewrite Hrun. unfold gets_past; cbn [fst snd].
    destruct (truthy (cfg_groq_api_key (read_config w ui))); [|done].
    cbn [andb].
    destruct (ChatGroq_raises w (client w ui)) as [e|]; [done|].
    by rewrite bool_decide_eq_true_2.
  - reflexivity.
  - destruct (session_without_conversation steps None)
      as (session' & Hrun & Hiff).
    exists session'. split; [done|]. rewrite Hiff. intuition congruence.
Qed.

(** A session that starts without a key: nothing is seeded until the key
    is typed, and then the greeting alone. *)
Example key_typed_after_keyless_start :
  session_run 2 [(keyless_world, fresh_widgets)] None = Some None /\
  session_run 2 [(keyless_world, fresh_widgets); (keyless_world, key_typed)]
    None = Some (Some [greeting]).
Proof. split; vm_compute; reflexivity. Qed.

(** * Further properties of the script *)

(** ** One interaction, by cases *)

Lemma runner_solve (w : world) (ui : widgets) (session : option (list message)) :
  truthy (cfg_groq_api_key (read_config w ui)) = true ->
  ChatGroq_raises w (client w ui) = None ->
  w_click ui = SolveClick ->
  truthy (w_question ui) = true ->
  script_runner 2 w ui (on_session session) =
  Some (Normal (),
        {| messages :=
             Some (seed session ++
                   [ Message "user" (w_question ui);
                     Message "assistant"
                       (reply (agent_run w (solver w ui) (w_question ui)).2) ]);
           trace := prelude_trace w ui (seed session) ++ examples_trace ++
                    solve_trace w ui ++ trace_of footer |}).
Proof.
  intros Hkey Hok Hclick Hq.
  apply script_runner_done; [|done].
  by rewrite (app_solve w ui).
Qed.

Lemma runner_idle (w : world) (ui : widgets) (session : option (list message)) :
  truthy (cfg_groq_api_key (read_config w ui)) = true ->
  ChatGroq_raises w (client w ui) = None ->
  example_chosen ui = None ->
  solve_pressed (w_click ui) && truthy (w_question ui) = false ->
  script_runner 2 w ui (on_session session) =
  Some (Normal (),
        {| messages := Some (seed session);
           trace := prelude_trace w ui (seed session) ++ examples_trace ++
                    trace_of footer |}).
Proof.
  intros Hkey Hok Hnone Hoff.
  apply script_runner_done; [|done].
  by rewrite (app_idle w ui).
Qed.

Lemma runner_example (w : world) (ui : widgets)
    (session : option (list message)) (i : nat) (example : string) :
  truthy (cfg_groq_api_key (read_config w ui)) = true ->
  ChatGroq_raises w (client w ui) = None ->
  example_chosen ui = Some (i, example) ->
  exists t,
    script_runner 2 w ui (on_session session) =
    Some (Normal (),
          {| messages := Some (seed session ++ [Message "user" example]);
             trace := t ++ trace_of footer |}).
Proof.
  intros Hkey Hok Hchosen.
  destruct (app_example w ui i example (on_session session) Hkey Hok Hchosen)
    as (t1 & Hfirst & _).
  eexists. cbn [script_runner]. rewrite Hfirst.
  rewrite (app_idle w (release_buttons ui)); [|done|done|done|done].
  cbn [messages trace seed default].
  by rewrite !app_assoc.
Qed.

Lemma runner_gate_closed (w : world) (ui : widgets)
    (session : option (list message)) :
  truthy (cfg_groq_api_key (read_config w ui)) = false ->
  script_runner 2 w ui (on_session session) =
  Some (Stop, {| messages := session; trace := gate_closed_trace w ui |}).
Proof.
  intros Hkey. apply script_runner_done; [|done].
  by rewrite app_gate_closed.
Qed.

Lemma runner_llm_raises (w : world) (ui : widgets)
    (session : option (list message)) (e : string) :
  truthy (cfg_groq_api_key (read_config w ui)) = true ->
  ChatGroq_raises w (client w ui) = Some e ->
  script_runner 2 w ui (on_session session) =
  Some (Stop, {| messages := session; trace := llm_raises_trace w ui e |}).
Proof.
  intros Hkey Hraises. apply script_runner_done; [|done].
  by rewrite (app_llm_raises w ui e).
Qed.

Lemma solve_pressed_click (c : click) : solve_pressed c = true -> c = SolveClick.
Proof. by destruct c. Qed.

Lemma example_chosen_click (ui : widgets) (i : nat) (example : string) :
  example_chosen ui = Some (i, example) <->
  w_click ui = ExampleClick i /\ example_problems !! i = Some example.
Proof.
  unfold example_chosen. split.
  - destruct (w_click ui) as [| |j]; try done.
    destruct (example_problems !! j) as [x|] eqn:Hj; [|done].
    intros [= -> ->]. done.
  - intros [-> ->]. done.
Qed.

(** Every interaction falls in one of five cases. *)
Lemma interaction_cases (w : world) (ui : widgets)
    (session : option (list message)) :
  (exists t,
     script_runner 2 w ui (on_session session) =
     Some (Stop, {| messages := session; trace := t |}) /\
     existsb about_heading t = false) \/
  (exists t appended,
     script_runner 2 w ui (on_session session) =
     Some (Normal (),
           {| messages := Some (seed session ++ appended);
              trace := t ++ trace_of footer |}) /\
     (appended = [] \/
      (exists i example,
         example_problems !! i = Some example /\
         appended = [Message "user" example]) \/
      appended =
        [ Message "user" (w_question ui);
          Message "assistant"
            (reply (agent_run w (solver w ui) (w_question ui)).2) ])).
Proof.
  destruct (truthy (cfg_groq_api_key (read_config w ui))) eqn:Hkey;
    [|left; eexists; split; [by apply runner_gate_closed | reflexivity]].
  destruct (ChatGroq_raises w (client w ui)) as [e|] eqn:Hllm;
    [left; eexists; split; [by apply runner_llm_raises | reflexivity]|].
  right.
  destruct (example_chosen ui) as [[i example]|] eqn:Hchosen.
  - destruct (runner_example w ui session i example Hkey Hllm Hchosen)
      as (t & Hrun).
    exists t, [Message "user" example]. split; [done|].
    right; left. exists i, example.
    by apply example_chosen_click in Hchosen as [_ ?].
  - destruct (solve_pressed (w_click ui) && truthy (w_question ui)) eqn:Hsolve.
    + apply andb_true_iff in Hsolve as [Hclick%solve_pressed_click Hq].
      exists (prelude_trace w ui (seed session) ++ examples_trace ++
              solve_trace w ui),
             [ Message "user" (w_question ui);
               Message "assistant"
                 (reply (agent_run w (solver w ui) (w_question ui)).2) ].
      split; [|by right; right].
      rewrite runner_solve by done. by rewrite <- !app_assoc.
    + exists (prelude_trace w ui (seed session) ++ examples_trace), [].
      split; [|by left].
      rewrite runner_idle by done. by rewrite app_nil_r, <- !app_assoc.
Qed.

Lemma drawn_messages_app (t1 t2 : list effect) :
  drawn_messages (t1 ++ t2) = drawn_messages t1 ++ drawn_messages t2.
Proof. apply omap_app. Qed.


Lemma drawn_messages_events (h : StreamlitCallbackHandler)
    (evs : list agent_event) :
  drawn_messages (map (on_agent_event h) evs) = [].
Proof. induction evs as [|ev evs IH]; [done | exact IH]. Qed.


Lemma drawn_messages_solve_trace (w : world) (ui : widgets) :
  drawn_messages (solve_trace w ui) = [Message "user" (w_question ui)].
Proof.
  unfold solve_trace. rewrite !drawn_messages_app, drawn_messages_events.
  by destruct (agent_run w (solver w ui) (w_question ui)).2.
Qed.

Lemma greeting_first_step (w : world) (ui : widgets)
    (session : option (list message)) :
  session = None \/ (exists rest, session = Some (greeting :: rest)) ->
  exists r,
    script_runner 2 w ui (on_session session) = Some r /\
    (messages r.2 = None \/ exists rest, messages r.2 = Some (greeting :: rest)).
Proof.
  intros Hfirst.
  destruct (interaction_cases w ui session)
    as [(t & -> & _)|(t & appended & -> & _)]; eexists; (split; [done|]).
  - exact Hfirst.
  - right. destruct Hfirst as [->|(rest & ->)]; simpl; by eexists.
Qed.

(** ** Properties *)

(** X1. Every interaction is over after at most two executions of the
    script: an example click reruns it once and the rerun does not rerun
    again. The reads and appends of [st.session_state.messages] (lines 184,
    212, 218, 233, 237) never fail on a missing conversation, line 178
    having created it by then. The sidebar footer is drawn exactly when the
    interaction ends normally rather than by [st.stop()]. Exceptions raised
    inside the calls to the libraries are not part of this statement. *)
Theorem interaction_finds_conversation_and_settles (w : world) (ui : widgets)
    (session : option (list message)) :
  exists c s',
    script_runner 2 w ui (on_session session) = Some (c, s') /\
    c <> Rerun /\
    c <> Uncaught "AttributeError: st.session_state has no attribute messages" /\
    existsb about_heading (trace s') =
    match c with Normal _ => true | _ => false end.
Proof.
  destruct (interaction_cases w ui session)
    as [(t & Hrun & Hno)|(t & appended & Hrun & _)].
  - eexists _, _. split; [exact Hrun|]. split; [done|]. split; [done|].
    exact Hno.
  - eexists _, _. split; [exact Hrun|]. split; [done|]. split; [done|].
    cbn [trace]. rewrite existsb_app. apply orb_true_r.
Qed.

(** X2. When the [ChatGroq] constructor raises, the execution shows
    "Error initializing the AI model: " followed by the error and stops:
    the session is left as it was (not even seeded), the question input is
    not drawn and nothing of the solver is built or run. *)
Theorem client_failure_stops_with_error (w : world) (ui : widgets)
    (session : option (list message)) (e : string) :
  cfg_groq_api_key (read_config w ui) <> "" ->
  ChatGroq_raises w (client w ui) = Some e ->
  exists t,
    script_runner 2 w ui (on_session session) =
    Some (Stop, {| messages := session; trace := t |}) /\
    st_error ("Error initializing the AI model: " +:+ e) ∈ t /\
    existsb chat_input t = false /\
    existsb solver_call t = false.
Proof.
  intros Hkey%truthy_nonempty Hraises.
  exists (llm_raises_trace w ui e). split; [by apply runner_llm_raises|].
  split; [|split; reflexivity].
  unfold llm_raises_trace. rewrite !elem_of_app. right; right.
  apply list_elem_of_In. right. by left.
Qed.

Lemma client_failure_stops_with_error_witness :
  ChatGroq_raises rejecting_world (client rejecting_world fresh_widgets) =
    Some "Invalid API key" /\
  exists t,
    script_runner 2 rejecting_world fresh_widgets (on_session None) =
    Some (Stop, {| messages := None; trace := t |}) /\
    st_error "Error initializing the AI model: Invalid API key" ∈ t /\
    existsb chat_input t = false /\
    existsb solver_call t = false.
Proof.
  split; [reflexivity|].
  apply (client_failure_stops_with_error rejecting_world fresh_widgets None
           "Invalid API key"); [done | reflexivity].
Defined.

(** X3. An execution ends in a rerun exactly when it got past the key gate
    and the client construction and the button of an existing example was
    pressed. *)
Theorem rerun_exactly_on_example_click (w : world) (ui : widgets)
    (s : script_state) :
  (exists s', app w ui s = (Rerun, s')) <->
  cfg_groq_api_key (read_config w ui) <> "" /\
  ChatGroq_raises w (client w ui) = None /\
  exists i example,
    w_click ui = ExampleClick i /\ example_problems !! i = Some example.
Proof.
  split.
  - intros (s' & Happ).
    destruct (truthy (cfg_groq_api_key (read_config w ui))) eqn:Hkey;
      [|by rewrite app_gate_closed in Happ].
    destruct (ChatGroq_raises w (client w ui)) as [e|] eqn:Hllm;
      [by rewrite (app_llm_raises w ui e) in Happ|].
    split; [by apply truthy_nonempty|]. split; [done|].
    destruct (example_chosen ui) as [[i example]|] eqn:Hchosen.
    + exists i, example. by apply example_chosen_click.
    + destruct (solve_pressed (w_click ui) && truthy (w_question ui)) eqn:Hsolve.
      * apply andb_true_iff in Hsolve as [Hclick%solve_pressed_click Hq].
        by rewrite app_solve in Happ.
      * by rewrite app_idle in Happ.
  - intros (Hkey%truthy_nonempty & Hllm & i & example & Hchosen%example_chosen_click).
    destruct (app_example w ui i example s Hkey Hllm Hchosen) as (t & -> & _).
    by eexists.
Qed.

(** X4. On a conversation that exists, one interaction appends nothing, or
    the text of one canned example as a user record, or the typed question
    as a user record followed by one assistant record; nothing else. *)
Theorem interaction_appends_nothing_question_or_exchange (w : world)
    (ui : widgets) (l : list message) :
  exists c t appended,
    script_runner 2 w ui (on_session (Some l)) =
    Some (c, {| messages := Some (l ++ appended); trace := t |}) /\
    (appended = [] \/
     (exists i example,
        example_problems !! i = Some example /\
        appended = [Message "user" example]) \/
     appended =
       [ Message "user" (w_question ui);
         Message "assistant"
           (reply (agent_run w (solver w ui) (w_question ui)).2) ]).
Proof.
  destruct (interaction_cases w ui (Some l))
    as [(t & Hrun & _)|(t & appended & Hrun & Hforms)].
  - exists Stop, t, []. split; [by rewrite app_nil_r | by left].
  - by exists (Normal ()), (t ++ trace_of footer), appended.
Qed.

(** X5. An interaction in which no button is pressed (a setting was
    changed, text was typed) leaves an existing conversation exactly as it
    was and neither builds nor runs the solver, whatever the key, the model
    and the temperature are. *)
Theorem setting_change_keeps_conversation (w : world) (ui : widgets)
    (l : list message) :
  w_click ui = NoClick ->
  exists c t,
    script_runner 2 w ui (on_session (Some l)) =
    Some (c, {| messages := Some l; trace := t |}) /\
    existsb solver_call t = false.
Proof.
  intros Hclick.
  destruct (truthy (cfg_groq_api_key (read_config w ui))) eqn:Hkey.
  - destruct (ChatGroq_raises w (client w ui)) as [e|] eqn:Hllm.
    + eexists _, _. split; [by apply (runner_llm_raises w ui _ e)|].
      apply quiet_llm_raises.
    + eexists _, _. split.
      * apply runner_idle; [done | done | | ].
        -- unfold example_chosen. by rewrite Hclick.
        -- by rewrite Hclick.
      * rewrite !existsb_app.
        by rewrite quiet_prelude, quiet_examples, quiet_footer.
  - eexists _, _. split; [by apply runner_gate_closed|].
    apply quiet_gate_closed.
Qed.

Lemma setting_change_keeps_conversation_witness :
  w_click settings_changed = NoClick /\
  exists c t,
    script_runner 2 answering_world settings_changed
      (on_session (Some [greeting; Message "user" "1 + 1";
                         Message "assistant" "2"])) =
    Some (c, {| messages := Some [greeting; Message "user" "1 + 1";
                                  Message "assistant" "2"];
                trace := t |}) /\
    existsb solver_call t = false.
Proof.
  split; [reflexivity|].
  apply (setting_change_keeps_conversation answering_world settings_changed);
    reflexivity.
Defined.

(** X6. The settings of the sidebar take effect on the next solve: the key
    typed in the field (whatever the environment holds), the model picked
    and the temperature set are the arguments of the [ChatGroq] constructor,
    with streaming on, and the agent that is run, its calculator and its
    reasoning tool are all built on that client. *)
Theorem picked_settings_reach_client_and_agent (w : world) (ui : widgets)
    (session : option (list message)) (k m : string) (j : nat) (temp : Q) :
  w_api_key ui = Some k ->
  k <> "" ->
  w_model ui = Some j ->
  model_options.*1 !! j = Some m ->
  w_temperature ui = Some temp ->
  ChatGroq_raises w (client w ui) = None ->
  w_click ui = SolveClick ->
  w_question ui <> "" ->
  exists msgs t a cb,
    script_runner 2 w ui (on_session session) =
    Some (Normal (), {| messages := msgs; trace := t |}) /\
    new_ChatGroq {| model := m; groq_api_key := k; temperature := temp;
                    streaming := true |} ∈ t /\
    call_agent_run a (w_question ui) [cb] ∈ t /\
    agent_llm a = {| model := m; groq_api_key := k; temperature := temp;
                     streaming := true |} /\
    tools a = setup_tools {| model := m; groq_api_key := k;
                             temperature := temp; streaming := true |}.
Proof.
  intros Hk Hne Hj Hm Htemp Hok Hclick Hq%truthy_nonempty.
  assert (client w ui = {| model := m; groq_api_key := k; temperature := temp;
                           streaming := true |}) as Hclient.
  { unfold client, read_config; cbn [cfg_selected_model cfg_groq_api_key
      cfg_temperature]. rewrite Hk, Hj, Htemp. cbn [from_option id].
    by rewrite Hm. }
  assert (truthy (cfg_groq_api_key (read_config w ui)) = true) as Hkey.
  { apply truthy_nonempty. unfold read_config; cbn [cfg_groq_api_key].
    by rewrite Hk. }
  eexists _, _, (solver w ui), (handler w ui).
  split; [by apply runner_solve|]. rewrite <- Hclient.
  split; [|split; [|split; reflexivity]].
  - unfold prelude_trace. rewrite !elem_of_app. left. right. right. left.
    apply list_elem_of_In. by left.
  - rewrite !elem_of_app. right. right. left. unfold solve_trace.
    rewrite !elem_of_app. left. by apply (list_elem_of_lookup_2 _ 5).
Qed.

Lemma picked_settings_reach_client_and_agent_witness :
  model_options.*1 !! 3%nat = Some "mixtral-8x7b-32768" /\
  exists msgs t a cb,
    script_runner 2 answering_world (configured_and_solved "2 + 2")
      (on_session None) =
    Some (Normal (), {| messages := msgs; trace := t |}) /\
    new_ChatGroq {| model := "mixtral-8x7b-32768"; groq_api_key := "gsk_typed";
                    temperature := 0.7%Q; streaming := true |} ∈ t /\
    call_agent_run a "2 + 2" [cb] ∈ t /\
    agent_llm a = {| model := "mixtral-8x7b-32768"; groq_api_key := "gsk_typed";
                     temperature := 0.7%Q; streaming := true |} /\
    tools a = setup_tools {| model := "mixtral-8x7b-32768";
                             groq_api_key := "gsk_typed";
                             temperature := 0.7%Q; streaming := true |}.
Proof.
  split; [reflexivity|].
  apply (picked_settings_reach_client_and_agent answering_world
           (configured_and_solved "2 + 2") None "gsk_typed"
           "mixtral-8x7b-32768" 3 0.7%Q);
    [reflexivity | done | reflexivity | reflexivity | reflexivity
    | reflexivity | reflexivity | done].
Defined.

(** X7. Over a whole session that starts without a conversation, the
    conversation either does not exist yet or begins with the greeting:
    the greeting is seeded once, first, and nothing is ever put before
    it. *)
Theorem conversation_starts_with_greeting (steps : list (world * widgets)) :
  exists session',
    session_run 2 steps None = Some session' /\
    (session' = None \/ exists rest, session' = Some (greeting :: rest)).
Proof.
  assert (forall session,
            session = None \/ (exists rest, session = Some (greeting :: rest)) ->
            exists session',
              session_run 2 steps session = Some session' /\
              (session' = None \/
               exists rest, session' = Some (greeting :: rest))) as Hgen.
  { induction steps as [|step steps IH]; intros session Hfirst.
    - by exists session.
    - cbn [session_run].
      destruct (greeting_first_step step.1 step.2 session Hfirst)
        as (r & -> & Hnext).
      by apply IH. }
  apply Hgen. by left.
Qed.

(** X8. In a solve invocation, what the page shows as the answer is what
    the conversation records: the response written with [st.write] when the
    run returns, the message shown with [st.error] when it raises. *)
Theorem shown_answer_is_recorded (w : world) (ui : widgets)
    (session : option (list message)) :
  cfg_groq_api_key (read_config w ui) <> "" ->
  ChatGroq_raises w (client w ui) = None ->
  w_click ui = SolveClick ->
  w_question ui <> "" ->
  exists t body,
    script_runner 2 w ui (on_session session) =
    Some (Normal (),
          {| messages :=
               Some (seed session ++
                     [ Message "user" (w_question ui);
                       Message "assistant" body ]);
             trace := t |}) /\
    match (agent_run w (solver w ui) (w_question ui)).2 with
    | Returns _ => st_write body
    | Raises _ => st_error body
    end ∈ t.
Proof.
  intros Hkey%truthy_nonempty Hok Hclick Hq%truthy_nonempty.
  eexists _, _. split; [by apply runner_solve|].
  rewrite !elem_of_app. right. right. left. unfold solve_trace.
  rewrite !elem_of_app. right. right.
  apply list_elem_of_In. left.
  by destruct (agent_run w (solver w ui) (w_question ui)).2.
Qed.

Lemma shown_answer_is_recorded_witness :
  w_question (typed_and_solved "2 + 2") <> "" /\
  exists t body,
    script_runner 2 failing_world (typed_and_solved "2 + 2") (on_session None) =
    Some (Normal (),
          {| messages :=
               Some [greeting; Message "user" "2 + 2"; Message "assistant" body];
             trace := t |}) /\
    st_error body ∈ t.
Proof.
  split; [done|].
  apply (shown_answer_is_recorded failing_world (typed_and_solved "2 + 2") None);
    [done | reflexivity | reflexivity | done].
Defined.



(** X10. Pressing an example and then solving a typed question leaves two
    user records in a row: the example's record stays unanswered, and the
    later exchange is appended after it. *)
Theorem example_then_solve_leaves_unanswered_question (w1 w2 : world)
    (ui1 ui2 : widgets) (session : option (list message)) (i : nat)
    (example : string) :
  cfg_groq_api_key (read_config w1 ui1) <> "" ->
  ChatGroq_raises w1 (client w1 ui1) = None ->
  w_click ui1 = ExampleClick i ->
  example_problems !! i = Some example ->
  cfg_groq_api_key (read_config w2 ui2) <> "" ->
  ChatGroq_raises w2 (client w2 ui2) = None ->
  w_click ui2 = SolveClick ->
  w_question ui2 <> "" ->
  session_run 2 [(w1, ui1); (w2, ui2)] session =
  Some (Some (seed session ++
              [ Message "user" example;
                Message "user" (w_question ui2);
                Message "assistant"
                  (reply (agent_run w2 (solver w2 ui2) (w_question ui2)).2) ])).
Proof.
  intros Hkey1%truthy_nonempty Hok1 Hclick1 Hex
         Hkey2%truthy_nonempty Hok2 Hclick2 Hq%truthy_nonempty.
  assert (example_chosen ui1 = Some (i, example)) as Hchosen
    by by apply example_chosen_click.
  destruct (runner_example w1 ui1 session i example Hkey1 Hok1 Hchosen)
    as (t & Hrun1).
  cbn [session_run fst snd]. rewrite Hrun1. cbn [snd messages].
  rewrite runner_solve by done. cbn [snd messages].
  change (seed (Some (seed session ++ [Message "user" example])))
    with (seed session ++ [Message "user" example]).
  by rewrite <- app_assoc.
Qed.

Lemma example_then_solve_leaves_unanswered_question_witness :
  example_problems !! 1%nat = Some "Find the area of a circle with radius 4 cm" /\
  session_run 2
    [ (answering_world, example_clicked 1);
      (answering_world, typed_and_solved "2 + 2") ] None =
  Some (Some [ greeting;
               Message "user" "Find the area of a circle with radius 4 cm";
               Message "user" "2 + 2";
               Message "assistant" "x = 5" ]).
Proof.
  split; [reflexivity|].
  apply (example_then_solve_leaves_unanswered_question answering_world
           answering_world (example_clicked 1) (typed_and_solved "2 + 2") None 1
           "Find the area of a circle with radius 4 cm");
    [done | reflexivity | reflexivity | reflexivity
    | done | reflexivity | reflexivity | done].
Defined.

Lemma button_keys_examples (l : list (nat * string)) :
  button_keys (map example_button_effect l) =
  map (fun i => "example_" +:+ pretty i) (l.*1).
Proof.
  induction l as [|ie l IH]; [done|].
  unfold button_keys; simpl. f_equal. exact IH.
Qed.

Lemma enumerate_indices {A : Type} (l : list A) :
  (enumerate l).*1 = seq 0 (length l).
Proof. unfold enumerate. apply fst_zip. by rewrite length_seq. Qed.

(** X11. However many examples the list holds, the loop of the example
    tab with no button pressed draws exactly one button per example, the
    one of index [i] labelled "Example i+1" with the widget key
    "example_i", and these keys are pairwise distinct. *)
Theorem example_buttons_have_distinct_keys (ui : widgets) (l : list string)
    (vars : string * bool) (s : script_state) :
  w_click ui = NoClick ->
  exists t,
    for_each (enumerate l) (example_button ui) vars s =
    (Normal vars, add_trace s t) /\
    t = map (fun i => st_button ("Example " +:+ pretty (i + 1)%nat)
                        (Some ("example_" +:+ pretty i)))
          (seq 0 (length l)) /\
    length (button_keys t) = length l /\
    NoDup (button_keys t).
Proof.
  intros Hclick.
  exists (map example_button_effect (enumerate l)).
  split; [|split; [|split]].
  - apply example_loop_idle. apply Forall_forall. intros ie _.
    by rewrite Hclick.
  - rewrite <- (enumerate_indices l).
    change (map ?f (?L.*1)) with (f <$> (fst <$> L)).
    by rewrite <- list_fmap_compose.
  - rewrite button_keys_examples, enumerate_indices.
    by rewrite length_map, length_seq.
  - rewrite button_keys_examples, enumerate_indices.
    assert (Inj (=) (=) (fun i : nat => "example_" +:+ pretty i)) as Hinj.
    { intros i j Heq.
      by apply (inj (String.app "example_")), (inj pretty) in Heq. }
    apply (NoDup_fmap_2 _), NoDup_seq.
Qed.

Lemma example_buttons_have_distinct_keys_witness :
  w_click fresh_widgets = NoClick /\
  exists t,
    for_each (enumerate example_problems) (example_button fresh_widgets)
      ("", false) (on_session (Some [greeting])) =
    (Normal ("", false), add_trace (on_session (Some [greeting])) t) /\
    t = [ st_button "Example 1" (Some "example_0");
          st_button "Example 2" (Some "example_1");
          st_button "Example 3" (Some "example_2");
          st_button "Example 4" (Some "example_3") ] /\
    length (button_keys t) = 4%nat /\
    NoDup (button_keys t).
Proof.
  split; [reflexivity|].
  apply (example_buttons_have_distinct_keys fresh_widgets example_problems
           ("", false) (on_session (Some [greeting]))); reflexivity.
Defined.

(** X12. An execution that stops, at the key gate or on a client that
    fails to construct, draws none of the conversation: an existing
    conversation is kept in the session but is not on the page. *)
Theorem stopped_execution_draws_no_history (w : world) (ui : widgets)
    (session : option (list message)) :
  cfg_groq_api_key (read_config w ui) = "" \/
  (exists e, ChatGroq_raises w (client w ui) = Some e) ->
  exists t,
    script_runner 2 w ui (on_session session) =
    Some (Stop, {| messages := session; trace := t |}) /\
    drawn_messages t = [].
Proof.
  intros Hstop.
  destruct (truthy (cfg_groq_api_key (read_config w ui))) eqn:Hkey.
  - destruct Hstop as [Hempty|(e & Hraises)].
    + by rewrite Hempty in Hkey.
    + eexists. split; [by apply (runner_llm_raises w ui _ e)|reflexivity].
  - eexists. split; [by apply runner_gate_closed|reflexivity].
Qed.

Lemma stopped_execution_draws_no_history_witness :
  cfg_groq_api_key (read_config keyless_world fresh_widgets) = "" /\
  exists t,
    script_runner 2 keyless_world fresh_widgets
      (on_session (Some [greeting; Message "user" "1 + 1";
                         Message "assistant" "2"])) =
    Some (Stop, {| messages := Some [greeting; Message "user" "1 + 1";
                                     Message "assistant" "2"];
                   trace := t |}) /\
    drawn_messages t = [].
Proof.
  split; [reflexivity|].
  apply (stopped_execution_draws_no_history keyless_world fresh_widgets).
  by left.
Defined.
